(** * RabbitGateway: the pairing-and-chat gateway of src/RabbitGateway.js

    A shallow embedding of the [RabbitGateway] class: the JavaScript values
    the handlers inspect, the gateway object with its client registry, the
    sockets it tags, and every observable effect (console lines, frames
    written with [ws.send], notifications raised with [emit]) recorded in
    one ordered trace. *)

From stdpp Require Import base option list strings pretty.
From Stdlib Require Import ZArith Ascii.

Local Open Scope Z_scope.
Local Open Scope string_scope.
Local Open Scope list_scope.

(** ** JavaScript values *)

(** Which array or object a value is.  [JSON.parse] makes every array and
    object of its result anew: [parsed call path] is the one found at
    [path] in the result of the [call]-th [JSON.parse].  [literal] is an
    object built by an object literal; the gateway's own are its frames,
    its payloads and the default [options], which it serializes or reads
    and never uses as a [Map] key. *)
Inductive identity : Type :=
| literal
| parsed (call : nat) (path : list nat).

#[global] Instance identity_eq_dec : EqDecision identity.
Proof. solve_decision. Defined.

(** What [JSON.parse] returns and what object literals build.  Numbers are
    the integers (the protocol carries ports, counters and epoch
    milliseconds); an object keeps its properties in insertion order, which
    is the order [JSON.stringify] writes them in. *)
#[warnings="-register-all"]
Inductive value : Type :=
| VUndefined
| VNull
| VBool (b : bool)
| VNum (z : Z)
| VStr (s : string)
| VArr (ref : identity) (items : list value)
| VObj (ref : identity) (fields : list (string * value)).

(** How an evaluation ends: with a value, or with a thrown error whose
    [message] the caller may log. *)
Inductive completion (A : Type) : Type :=
| Normal (a : A)
| Throw (message : string).
Arguments Normal {A} a.
Arguments Throw {A} message.

(** ToBoolean: the operand test of [||], [!] and [if]. *)
Definition truthy (v : value) : bool :=
  match v with
  | VUndefined | VNull => false
  | VBool b => b
  | VNum z => negb (Z.eqb z 0)
  | VStr s => negb (String.eqb s "")
  | VArr _ _ | VObj _ _ => true
  end.

(** [v === 'lit'] and [v !== this.token]: strict equality against a string. *)
Definition strict_eq_str (v : value) (lit : string) : bool :=
  match v with
  | VStr s => String.eqb s lit
  | _ => false
  end.

(** Own-property read of an object; a missing key reads [undefined]. *)
Fixpoint own_property (k : string) (fields : list (string * value)) : value :=
  match fields with
  | [] => VUndefined
  | (k', v) :: rest => if String.eqb k k' then v else own_property k rest
  end.

Definition has_own_property (k : string) (fields : list (string * value)) : bool :=
  existsb (fun field => String.eqb k (fst field)) fields.

(** [v?.k]: [undefined] on a nullish base.  None of the keys the gateway
    reads is an inherited property of a string, number, boolean or array,
    so those bases read [undefined] as well. *)
Definition opt_member (v : value) (k : string) : value :=
  match v with
  | VObj _ fields => own_property k fields
  | _ => VUndefined
  end.

Definition nullish (v : value) : bool :=
  match v with
  | VUndefined | VNull => true
  | _ => false
  end.

(** [a || b] on completions: [b] counts only when [a] is falsy. *)
Definition or_else (a b : completion value) : completion value :=
  match a with
  | Normal v => if truthy v then Normal v else b
  | Throw e => Throw e
  end.
Infix "|||" := or_else (at level 50, left associativity).

(** SameValueZero, the key comparison of [Map]: primitives by their value,
    arrays and objects by identity, whatever they hold. *)
Definition same_value_zero (a b : value) : bool :=
  match a, b with
  | VUndefined, VUndefined => true
  | VNull, VNull => true
  | VBool x, VBool y => Bool.eqb x y
  | VNum x, VNum y => Z.eqb x y
  | VStr x, VStr y => String.eqb x y
  | VArr r _, VArr r' _ => bool_decide (r = r')
  | VObj r _, VObj r' _ => bool_decide (r = r')
  | _, _ => false
  end.

(** What SameValueZero looks at: a primitive itself, and of an array or
    object its identity only. *)
Definition key_of (v : value) : value :=
  match v with
  | VArr r _ => VArr r []
  | VObj r _ => VObj r []
  | _ => v
  end.

(** ** The client registry: [new Map()], deviceId -> WebSocket *)

Module Map.
(** A [Map] keeps its entries in insertion order; a socket is referred to
    by its index in the socket store. *)
Definition t : Type := list (value * nat).

Fixpoint get (k : value) (m : t) : option nat :=
  match m with
  | [] => None
  | (k', v) :: rest => if same_value_zero k k' then Some v else get k rest
  end.

(** [set] overwrites the value of a present key in place and appends an
    absent one. *)
Fixpoint set (k : value) (v : nat) (m : t) : t :=
  match m with
  | [] => [(k, v)]
  | (k', v') :: rest =>
      if same_value_zero k k' then (k', v) :: rest else (k', v') :: set k v rest
  end.

(** A key occurs once in a [Map], so dropping every match drops its entry. *)
Fixpoint delete (k : value) (m : t) : t :=
  match m with
  | [] => []
  | (k', v') :: rest =>
      if same_value_zero k k' then delete k rest else (k', v') :: delete k rest
  end.
End Map.

(** ** Sockets, notifications and the effect trace *)

Inductive ReadyState : Type := CONNECTING | OPEN | CLOSING | CLOSED.

#[global] Instance ReadyState_eq_dec : EqDecision ReadyState.
Proof. solve_decision. Defined.

Definition is_OPEN (r : ReadyState) : bool :=
  match r with OPEN => true | _ => false end.

(** A [ws] object as the gateway sees it: the transport state, the
    [deviceId] tag the handshake writes on it ([undefined] until then), and
    the [remoteInfo] string its message listener closed over. *)
Record WebSocket : Type := mkWebSocket {
  readyState : ReadyState;
  deviceId : value;
  remoteInfo : string
}.

(** What [emit] hands to the application layer. *)
Inductive notification : Type :=
| deviceConnected (id : value) (remote : string)
| deviceDisconnected (id : value)
| message (device text sessionKey idempotencyKey : value)
| error (err : string).

Inductive effect : Type :=
| Console (line : string)          (* console.log / console.error *)
| Send (ws : nat) (frame : string) (* ws.send(frame) *)
| Emit (n : notification).         (* this.emit(...) *)

(** The gateway object together with the world it acts on.  [pending]
    holds the handlers whose promise was rejected and whose [catch] has not
    run yet, oldest first, each with the [remoteInfo] of its listener and
    the message of the error. *)
Record State : Type := mkState {
  port : N;
  debug : bool;
  token : string;
  listening : bool;            (* this.wss !== null *)
  clients : Map.t;
  sockets : list WebSocket;
  trace : list effect;
  uuid_calls : nat;            (* how many times uuidv4() ran *)
  clock_calls : nat;           (* how many times Date.now() ran *)
  parse_calls : nat;           (* how many times JSON.parse ran *)
  pending : list (string * string)
}.

Definition with_listening (b : bool) (s : State) : State :=
  mkState (port s) (debug s) (token s) b (clients s) (sockets s)
          (trace s) (uuid_calls s) (clock_calls s) (parse_calls s) (pending s).

Definition with_clients (m : Map.t) (s : State) : State :=
  mkState (port s) (debug s) (token s) (listening s) m (sockets s)
          (trace s) (uuid_calls s) (clock_calls s) (parse_calls s) (pending s).

Definition with_sockets (l : list WebSocket) (s : State) : State :=
  mkState (port s) (debug s) (token s) (listening s) (clients s) l
          (trace s) (uuid_calls s) (clock_calls s) (parse_calls s) (pending s).

Definition with_trace (t : list effect) (s : State) : State :=
  mkState (port s) (debug s) (token s) (listening s) (clients s) (sockets s)
          t (uuid_calls s) (clock_calls s) (parse_calls s) (pending s).

Definition with_uuid_calls (n : nat) (s : State) : State :=
  mkState (port s) (debug s) (token s) (listening s) (clients s) (sockets s)
          (trace s) n (clock_calls s) (parse_calls s) (pending s).

Definition with_clock_calls (n : nat) (s : State) : State :=
  mkState (port s) (debug s) (token s) (listening s) (clients s) (sockets s)
          (trace s) (uuid_calls s) n (parse_calls s) (pending s).

Definition with_parse_calls (n : nat) (s : State) : State :=
  mkState (port s) (debug s) (token s) (listening s) (clients s) (sockets s)
          (trace s) (uuid_calls s) (clock_calls s) n (pending s).

Definition with_pending (l : list (string * string)) (s : State) : State :=
  mkState (port s) (debug s) (token s) (listening s) (clients s) (sockets s)
          (trace s) (uuid_calls s) (clock_calls s) (parse_calls s) l.

Definition perform (e : effect) (s : State) : State :=
  with_trace (trace s ++ [e]) s.

(** A console line written only when [b] holds. *)
Definition perform_if (b : bool) (e : effect) (s : State) : State :=
  with_trace (trace s ++ (if b then [e] else [])) s.

(** The gateway object, the registry and the sockets are the same in [s]
    and [s']. *)
Definition same_gateway (s s' : State) : Prop :=
  port s' = port s /\ debug s' = debug s /\ token s' = token s /\
  listening s' = listening s /\ clients s' = clients s /\ sockets s' = sockets s.

(** [ws.readyState] and [ws.deviceId]; an index outside the store is no
    socket and reads as a closed, untagged one. *)
Definition readyState_of (s : State) (ws : nat) : ReadyState :=
  match sockets s !! ws with
  | Some w => readyState w
  | None => CLOSED
  end.

Definition deviceId_of (s : State) (ws : nat) : value :=
  match sockets s !! ws with
  | Some w => deviceId w
  | None => VUndefined
  end.

(** [ws.deviceId = id]. *)
Definition tag_socket (ws : nat) (id : value) (s : State) : State :=
  with_sockets
    (alter (fun w => mkWebSocket (readyState w) id (remoteInfo w)) ws (sockets s)) s.

Definition set_readyState (ws : nat) (r : ReadyState) (s : State) : State :=
  with_sockets
    (alter (fun w => mkWebSocket r (deviceId w) (remoteInfo w)) ws (sockets s)) s.

(** ** Views of the trace *)

Definition is_console (e : effect) : bool :=
  match e with Console _ => true | _ => false end.

(** What reaches a peer or the application: the trace without console lines. *)
Fixpoint wire (t : list effect) : list effect :=
  match t with
  | [] => []
  | e :: rest => if is_console e then wire rest else e :: wire rest
  end.

(** The console lines, in order. *)
Fixpoint console (t : list effect) : list string :=
  match t with
  | [] => []
  | Console l :: rest => l :: console rest
  | _ :: rest => console rest
  end.

(** The frames written on any socket. *)
Fixpoint frames (t : list effect) : list (nat * string) :=
  match t with
  | [] => []
  | Send ws f :: rest => (ws, f) :: frames rest
  | _ :: rest => frames rest
  end.

(** The notifications raised. *)
Fixpoint notifications (t : list effect) : list notification :=
  match t with
  | [] => []
  | Emit n :: rest => n :: notifications rest
  | _ :: rest => notifications rest
  end.

(** [contains needle hay]: [needle] occurs in [hay]. *)
Fixpoint contains (needle hay : string) : bool :=
  String.prefix needle hay ||
  match hay with
  | EmptyString => false
  | String _ rest => contains needle rest
  end.

(** ** The state-and-exception monad of the handlers *)

Definition M (A : Type) : Type := State -> completion A * State.

Definition ret {A} (a : A) : M A := fun s => (Normal a, s).

Definition bind {A B} (m : M A) (f : A -> M B) : M B :=
  fun s =>
    match m s with
    | (Normal a, s') => f a s'
    | (Throw e, s') => (Throw e, s')
    end.

Definition lift {A} (c : completion A) : M A := fun s => (c, s).
Definition gets {A} (f : State -> A) : M A := fun s => (Normal (f s), s).
Definition modify (f : State -> State) : M unit := fun s => (Normal tt, f s).
Definition when (b : bool) (m : M unit) : M unit := if b then m else ret tt.

Notation "'let*' x ':=' m 'in' k" := (bind m (fun x => k))
  (at level 10, x name, m at level 100, k at level 200).

(** ** Requests of the wire protocol *)

(** [{"method":"connect","params":{"auth":{"token":..},"device":{"id":..}},"id":..}]. *)
Definition connect_request (tok dev id : string) : value :=
  VObj literal
    [("method", VStr "connect");
     ("params",
       VObj literal
         [("auth", VObj literal [("token", VStr tok)]);
          ("device", VObj literal [("id", VStr dev)])]);
     ("id", VStr id)].

(** [{"method":"chat.send","params":{"message":..,"sessionKey":..,"idempotencyKey":..},"id":..}]. *)
Definition chat_request (text sessionKey idempotencyKey id : string) : value :=
  VObj literal
    [("method", VStr "chat.send");
     ("params",
       VObj literal
         [("message", VStr text);
          ("sessionKey", VStr sessionKey);
          ("idempotencyKey", VStr idempotencyKey)]);
     ("id", VStr id)].

(** A connect request whose device id is the array [[1]]. *)
Definition array_id_request (tok id : string) : value :=
  VObj literal
    [("method", VStr "connect");
     ("params",
       VObj literal
         [("auth", VObj literal [("token", VStr tok)]);
          ("device", VObj literal [("id", VArr literal [VNum 1])])]);
     ("id", VStr id)].

(** A connect request whose device id is the object [{"toString":1}]. *)
Definition opaque_id_request (tok id : string) : value :=
  VObj literal
    [("method", VStr "connect");
     ("params",
       VObj literal
         [("auth", VObj literal [("token", VStr tok)]);
          ("device", VObj literal [("id", VObj literal [("toString", VNum 1)])])]);
     ("id", VStr id)].

(** ** A sample runtime

    One concrete choice of what the runtime supplies, used to run the
    gateway on explicit inputs. *)

Definition sample_uuid (n : nat) : string := "uuid-" +:+ pretty n.

Definition sample_clock (n : nat) : Z := 1700000000000 + Z.of_nat n.

Definition sample_TypeError (v : value) (k : string) : string :=
  "Cannot read properties of "
  +:+ match v with VNull => "null" | _ => "undefined" end
  +:+ " (reading '" +:+ k +:+ "')".

Definition sample_ToPrimitive : string := "Cannot convert object to primitive value".

Fixpoint strip_zeros_end (t : string) : string :=
  match t with
  | EmptyString => EmptyString
  | String c rest =>
      match strip_zeros_end rest with
      | EmptyString => if Ascii.eqb c "0" then EmptyString else String c EmptyString
      | kept => String c kept
      end
  end.

(** The digits of an integer: in full up to twenty-one of them, in
    exponent form beyond, as Number::toString writes the Numbers that have
    fifteen significant digits at most. *)
Definition sample_Number_toString (z : Z) : string :=
  let digits := pretty (Z.abs z) in
  let sign := if Z.ltb z 0 then "-" else "" in
  if (String.length digits <=? 21)%nat then sign +:+ digits
  else
    let exponent := "e+" +:+ pretty (String.length digits - 1)%nat in
    match strip_zeros_end digits with
    | EmptyString => "0"
    | String d EmptyString => sign +:+ String d exponent
    | String d more => sign +:+ String d ("." +:+ more) +:+ exponent
    end.

(** [new WebSocket.Server({ port })] refuses a port above 65535. *)
Definition sample_Server (p : N) : completion unit :=
  if (p <=? 65535)%N then Normal tt
  else Throw "options.port should be >= 0 and < 65536".

(** A serializer that is enough to tell the sample frames apart: strings
    are written between apostrophes and without escapes. *)
Fixpoint sample_stringify (v : value) : string :=
  match v with
  | VUndefined => "undefined"
  | VNull => "null"
  | VBool true => "true"
  | VBool false => "false"
  | VNum z => pretty z
  | VStr s => "'" +:+ s +:+ "'"
  | VArr _ items =>
      "[" +:+
      (fix go (l : list value) : string :=
         match l with
         | [] => ""
         | x :: rest =>
             match rest with
             | [] => sample_stringify x
             | _ :: _ => sample_stringify x +:+ "," +:+ go rest
             end
         end) items +:+ "]"
  | VObj _ fields =>
      "{" +:+
      (fix go (l : list (string * value)) : string :=
         match l with
         | [] => ""
         | (k, x) :: rest =>
             match rest with
             | [] => "'" +:+ k +:+ "':" +:+ sample_stringify x
             | _ :: _ => "'" +:+ k +:+ "':" +:+ sample_stringify x +:+ "," +:+ go rest
             end
         end) fields +:+ "}"
  end.

(** The arrays and objects of a parse result get the identity of their
    place in it. *)
Fixpoint allocate (call : nat) (path : list nat) (v : value) : value :=
  match v with
  | VArr _ items =>
      VArr (parsed call path)
        ((fix go (i : nat) (l : list value) : list value :=
            match l with
            | [] => []
            | x :: rest => allocate call (i :: path) x :: go (S i) rest
            end) 0%nat items)
  | VObj _ fields =>
      VObj (parsed call path)
        ((fix go (i : nat) (l : list (string * value)) : list (string * value) :=
            match l with
            | [] => []
            | (k, x) :: rest => (k, allocate call (i :: path) x) :: go (S i) rest
            end) 0%nat fields)
  | _ => v
  end.

(** A parser that knows the listed messages by their serialized text and
    rejects every other input. *)
Fixpoint parse_from (known : list value) (call : nat) (data : string)
  : completion value :=
  match known with
  | [] => Throw "Unexpected token in JSON at position 0"
  | v :: rest =>
      if String.eqb data (sample_stringify v) then Normal (allocate call [] v)
      else parse_from rest call data
  end.

Definition sample_parse : nat -> string -> completion value :=
  parse_from [connect_request "secret" "d1" "1";
              connect_request "secret" "d2" "2";
              connect_request "guess" "d1" "3";
              chat_request "hi" "main" "r1" "4";
              array_id_request "secret" "5";
              opaque_id_request "secret" "6"].

(** ** The host's network interfaces *)

(** One entry of [os.networkInterfaces()[name]], with the fields
    [_getLanIps] reads. *)
Record NetworkInterfaceInfo : Type := mkNet {
  address : string;
  family : value;
  internal : bool
}.

(** A sample host: loopback, a LAN address, an IPv6 address, a public
    address and a container bridge. *)
Definition sample_interfaces : list (string * list NetworkInterfaceInfo) :=
  [("lo", [mkNet "127.0.0.1" (VStr "IPv4") true]);
   ("eth0", [mkNet "192.168.1.20" (VStr "IPv4") false;
             mkNet "fe80::1" (VStr "IPv6") false;
             mkNet "8.8.4.4" (VStr "IPv4") false]);
   ("docker0", [mkNet "172.17.0.1" (VStr "IPv4") false])].

(** A sample shell: only the Homebrew binary exists. *)
Definition sample_exec (cmd : string) : completion string :=
  if String.eqb cmd "/opt/homebrew/bin/tailscale ip -4"
  then Normal "100.64.0.7 "
  else Throw "command not found".

Definition is_space (c : ascii) : bool :=
  existsb (Ascii.eqb c) [" "%char; "009"%char; "010"%char; "011"%char;
                         "012"%char; "013"%char].

Fixpoint trim_start (t : string) : string :=
  match t with
  | EmptyString => EmptyString
  | String c rest => if is_space c then trim_start rest else t
  end.

Fixpoint trim_end (t : string) : string :=
  match t with
  | EmptyString => EmptyString
  | String c rest =>
      match trim_end rest with
      | EmptyString => if is_space c then EmptyString else String c EmptyString
      | kept => String c kept
      end
  end.

(** [trim] over the ASCII white space. *)
Definition sample_trim (t : string) : string := trim_end (trim_start t).

Definition sample_toDataURL (text : string) : completion string :=
  Normal ("data:image/png;base64," +:+ text).

(** ** The gateway *)

Section RabbitGateway.

(** What the runtime and the libraries supply: [uuidv4()] and [Date.now()]
    by call number; [JSON.parse] by call number too, since every call makes
    new arrays and objects (it throws on malformed text);
    [JSON.stringify]; the text of the TypeError raised when property [k] is
    read from [undefined] or [null]; Number::toString beyond the safe
    integers; the text of the TypeError raised when an object has no
    primitive value; and [new WebSocket.Server({ port })], which throws
    when it refuses the port. *)
Variable uuidv4 : nat -> string.
Variable Date_now : nat -> Z.
Variable JSON_parse : nat -> string -> completion value.
Variable JSON_stringify : value -> string.
Variable TypeError_message : value -> string -> string.
Variable Number_toString : Z -> string.
Variable ToPrimitive_message : string.
Variable WebSocket_Server : N -> completion unit.

(** [v.k]: throws on [undefined] and [null]. *)
Definition member (v : value) (k : string) : completion value :=
  if nullish v then Throw (TypeError_message v k) else Normal (opt_member v k).

(** [${n}] for an integer: its decimal digits while it is a safe integer. *)
Definition number_to_String (z : Z) : string :=
  if Z.leb (Z.abs z) 9007199254740991 then pretty z else Number_toString z.

(** ToString, as a template literal applies it to [${v}].  An array is
    joined with commas, [null] and [undefined] items reading as empty.  An
    object without a [toString] of its own inherits the one that answers
    '[object Object]'; one whose own [toString] is a JSON value has no
    callable [toString], its [valueOf] (own or inherited) yields no
    primitive either, and the conversion throws a TypeError. *)
Fixpoint to_String (v : value) : completion string :=
  match v with
  | VUndefined => Normal "undefined"
  | VNull => Normal "null"
  | VBool true => Normal "true"
  | VBool false => Normal "false"
  | VNum z => Normal (number_to_String z)
  | VStr s => Normal s
  | VArr _ items =>
      (fix join (l : list value) : completion string :=
         match l with
         | [] => Normal ""
         | x :: rest =>
             match (if nullish x then Normal "" else to_String x) with
             | Throw e => Throw e
             | Normal sx =>
                 match rest with
                 | [] => Normal sx
                 | _ :: _ =>
                     match join rest with
                     | Throw e => Throw e
                     | Normal sr => Normal (sx +:+ "," +:+ sr)
                     end
                 end
             end
         end) items
  | VObj _ fields =>
      if has_own_property "toString" fields then Throw ToPrimitive_message
      else Normal "[object Object]"
  end.

Definition new_uuid : M string :=
  fun s => (Normal (uuidv4 (uuid_calls s)), with_uuid_calls (S (uuid_calls s)) s).

Definition now : M value :=
  fun s => (Normal (VNum (Date_now (clock_calls s))),
            with_clock_calls (S (clock_calls s)) s).

(** [JSON.parse(data)]. *)
Definition parse (data : string) : M value :=
  fun s => (JSON_parse (parse_calls s) data, with_parse_calls (S (parse_calls s)) s).

Definition console_log (line : string) : M unit := modify (perform (Console line)).
Definition emit (n : notification) : M unit := modify (perform (Emit n)).

(** [log(msg)]: [console.log(`[RabbitGateway] ${msg}`)], whatever [debug] is. *)
Definition log (msg : string) : M unit :=
  console_log ("[RabbitGateway] " +:+ msg).

(** [uuidv4().replace(/-/g, '')]. *)
Fixpoint strip_dashes (s : string) : string :=
  match s with
  | EmptyString => EmptyString
  | String c rest =>
      if Ascii.eqb c "-"%char then strip_dashes rest else String c (strip_dashes rest)
  end.

(** The constructor's [options], with the types its documentation gives. *)
Record Options : Type := mkOptions {
  opt_port : option N;
  opt_token : option string;
  opt_debug : option bool
}.

(** [new RabbitGateway(options)] in a fresh world. *)
Definition constructor (options : Options) : State :=
  let p := match opt_port options with
           | Some p => if N.eqb p 0 then 18789%N else p
           | None => 18789%N
           end in
  let d := match opt_debug options with
           | Some b => b
           | None => false
           end in
  let given := match opt_token options with
               | Some t => negb (String.eqb t "")
               | None => false
               end in
  let t := match opt_token options with
           | Some t => if String.eqb t "" then strip_dashes (uuidv4 0) else t
           | None => strip_dashes (uuidv4 0)
           end in
  mkState p d t false [] [] [] (if given then 0 else 1)%nat 0%nat 0%nat [].

(** [start()]: the server is created first, and [this.wss] is assigned
    only when [new WebSocket.Server] returns; both lines go through
    [log]. *)
Definition start : M unit :=
  let* p := gets port in
  let* _ := lift (WebSocket_Server p) in
  let* _ := modify (with_listening true) in
  let* _ := log ("Rabbit Gateway listening on port " +:+ number_to_String (Z.of_N p)) in
  let* t := gets token in
  log ("Gateway Token: " +:+ t).

(** The server's ['error'] listener; [err] is the error as the console
    prints it.  [emit('error', err)] throws [err] when the application has
    registered no ['error'] listener on the gateway ([listened] is false). *)
Definition on_server_error (err : string) (listened : bool) : M unit :=
  let* _ := console_log ("Rabbit Gateway Error: " +:+ err) in
  let* _ := emit (error err) in
  if listened then ret tt else lift (Throw err).

Definition _sendJson (ws : nat) (data : value) : M unit :=
  let* r := gets (fun s => readyState_of s ws) in
  if is_OPEN r then
    let* d := gets debug in
    let* _ := when d (console_log ("OUT > " +:+ JSON_stringify data)) in
    modify (perform (Send ws (JSON_stringify data)))
  else ret tt.

Definition _extractToken (msg : value) : completion value :=
  match member msg "params" with
  | Normal p => Normal (opt_member (opt_member p "auth") "token")
  | Throw e => Throw e
  end
  ||| match member msg "params" with
      | Normal p => Normal (opt_member p "authToken")
      | Throw e => Throw e
      end
  ||| match member msg "auth" with
      | Normal a => Normal (opt_member a "token")
      | Throw e => Throw e
      end
  ||| member msg "token".

Definition _extractDeviceId (msg : value) : completion value :=
  match member msg "params" with
  | Normal p => Normal (opt_member (opt_member p "device") "id")
  | Throw e => Throw e
  end
  ||| match member msg "params" with
      | Normal p => Normal (opt_member p "deviceId")
      | Throw e => Throw e
      end
  ||| match member msg "params" with
      | Normal p => Normal (opt_member (opt_member p "client") "id")
      | Throw e => Throw e
      end
  ||| member msg "deviceId".

(** The frames the gateway builds. *)
Definition chat_event (runId sessionKey text timestamp : value) : value :=
  VObj literal
    [("type", VStr "event");
     ("event", VStr "chat");
     ("payload",
       VObj literal
         [("runId", runId);
          ("sessionKey", sessionKey);
          ("seq", VNum 1);
          ("state", VStr "final");
          ("message",
            VObj literal
              [("role", VStr "assistant");
               ("content",
                 VArr literal [VObj literal [("type", VStr "text"); ("text", text)]]);
               ("timestamp", timestamp);
               ("stopReason", VStr "stop");
               ("usage",
                 VObj literal
                   [("input", VNum 0);
                    ("output", VNum 0);
                    ("totalTokens", VNum 0)])])])].

Definition challenge_event (nonce : string) (ts : value) : value :=
  VObj literal
    [("type", VStr "event");
     ("event", VStr "connect.challenge");
     ("payload", VObj literal [("nonce", VStr nonce); ("ts", ts)])].

Definition unauthorized_response (id : value) : value :=
  VObj literal
    [("type", VStr "res");
     ("id", id);
     ("ok", VBool false);
     ("error", VObj literal [("code", VNum 401); ("message", VStr "Invalid token")])].

Definition pair_approved_event (device : value) (tok : string) : value :=
  VObj literal
    [("type", VStr "event");
     ("event", VStr "node.pair.approved");
     ("payload", VObj literal [("deviceId", device); ("token", VStr tok)])].

Definition paired_response (id ts : value) : value :=
  VObj literal
    [("type", VStr "res");
     ("id", id);
     ("ok", VBool true);
     ("payload", VObj literal [("status", VStr "paired"); ("ts", ts)])].

Definition connect_ok_event (device ts : value) : value :=
  VObj literal
    [("type", VStr "event");
     ("event", VStr "connect.ok");
     ("payload", VObj literal [("deviceId", device); ("ts", ts)])].

Definition ack_response (id : value) : value :=
  VObj literal [("type", VStr "res"); ("id", id); ("ok", VBool true)].

(** [sendText(deviceId, text, options = {})]. *)
Definition sendText (device text options : value) : M bool :=
  let* registry := gets clients in
  match Map.get device registry with
  | None =>
      let* shown := lift (to_String device) in
      let* _ := log ("Cannot send to " +:+ shown +:+ ": Not connected") in
      ret false
  | Some ws =>
      let options := match options with VUndefined => VObj literal [] | _ => options end in
      let* r := lift (member options "runId") in
      let* runId := (if truthy r then ret r
                     else let* u := new_uuid in ret (VStr u)) in
      let* k := lift (member options "sessionKey") in
      let sessionKey := if truthy k then k else VStr "main" in
      let* ts := now in
      let* _ := _sendJson ws (chat_event runId sessionKey text ts) in
      ret true
  end.

(** [`${req.socket.remoteAddress}:${req.socket.remotePort}`]. *)
Definition remote_of (remoteAddress : string) (remotePort : N) : string :=
  remoteAddress +:+ ":" +:+ number_to_String (Z.of_N remotePort).

(** [_handleConnection(ws, req)] up to the listeners it installs; [ws] is
    the socket the server has just stored. *)
Definition _handleConnection (ws : nat) (remoteAddress : string) (remotePort : N)
  : M unit :=
  let remote := remote_of remoteAddress remotePort in
  let* _ := log ("New connection from " +:+ remote) in
  let* nonce := new_uuid in
  let* ts := now in
  _sendJson ws (challenge_event nonce ts).

(** The server's ['connection'] listener: the library has opened a socket
    and hands it over. *)
Definition on_connection (remoteAddress : string) (remotePort : N) : M nat :=
  let* ws := gets (fun s => length (sockets s)) in
  let remote := remote_of remoteAddress remotePort in
  let* _ := modify (fun s =>
              with_sockets (sockets s ++ [mkWebSocket OPEN VUndefined remote]) s) in
  let* _ := _handleConnection ws remoteAddress remotePort in
  ret ws.

(** [this._extractDeviceId(msg) || `device-${remoteInfo}`]. *)
Definition resolve_device (msg : value) (remote : string) : completion value :=
  _extractDeviceId msg ||| Normal (VStr ("device-" +:+ remote)).

Definition _handleMessage (ws : nat) (msg : value) (remote : string) : M unit :=
  let* d := gets debug in
  let* _ := when d (console_log ("IN < " +:+ JSON_stringify msg)) in
  let* method := lift (member msg "method") in
  if strict_eq_str method "connect" || strict_eq_str method "gateway.connect" then
    let* clientToken := lift (_extractToken msg) in
    let* device := lift (resolve_device msg remote) in
    let* tok := gets token in
    if negb (strict_eq_str clientToken tok) then
      let* shown := lift (to_String device) in
      let* _ := log ("Auth failed for device " +:+ shown) in
      let* id := lift (member msg "id") in
      _sendJson ws (unauthorized_response id)
    else
      let* _ := modify (fun s => with_clients (Map.set device ws (clients s)) s) in
      let* _ := modify (tag_socket ws device) in
      let* shown := lift (to_String device) in
      let* _ := log ("Device Paired: " +:+ shown) in
      let* u := new_uuid in
      let* _ := _sendJson ws (pair_approved_event device u) in
      let* id := lift (member msg "id") in
      let* ts := now in
      let* _ := _sendJson ws (paired_response id ts) in
      let* ts' := now in
      let* _ := _sendJson ws (connect_ok_event device ts') in
      emit (deviceConnected device remote)
  else if strict_eq_str method "chat.send" then
    let* tag := gets (fun s => deviceId_of s ws) in
    let device := if truthy tag then tag else VStr "unknown" in
    let* params := lift (member msg "params") in
    let* text := lift (member params "message") in
    let* params' := lift (member msg "params") in
    let* sessionKey := lift (member params' "sessionKey") in
    let* params'' := lift (member msg "params") in
    let* idempotencyKey := lift (member params'' "idempotencyKey") in
    let* _ := emit (message device text sessionKey idempotencyKey) in
    let* id := lift (member msg "id") in
    _sendJson ws (ack_response id)
  else ret tt.

(** The [catch] of the ['message'] listener. *)
Definition report (remote e : string) : M unit :=
  log ("Error parsing message from " +:+ remote +:+ ": " +:+ e).

(** [await this._handleMessage(ws, msg, remoteInfo)] in the listener's
    [try]: the handler runs at once and to its end; when it throws, its
    promise is rejected and the [catch] is left for the next microtask
    checkpoint. *)
Definition handle (ws : nat) (remote : string) (msg : value) (s : State) : State :=
  match _handleMessage ws msg remote s with
  | (Normal _, s') => s'
  | (Throw e, s') => with_pending (pending s' ++ [(remote, e)]) s'
  end.

(** The socket's ['message'] listener up to its [await]: what
    [JSON.parse] throws is caught and logged on the spot. *)
Definition on_message (ws : nat) (data : string) (s : State) : State :=
  match sockets s !! ws with
  | None => s
  | Some w =>
      match parse data s with
      | (Throw e, s1) => snd (report (remoteInfo w) e s1)
      | (Normal msg, s1) => handle ws (remoteInfo w) msg s1
      end
  end.

(** The microtask checkpoint at the end of a turn: the [catch] of every
    rejected handler runs, oldest first. *)
Definition run_microtasks (s : State) : State :=
  fold_left (fun s r => snd (report (fst r) (snd r) s)) (pending s) (with_pending [] s).

(** A parsed message handled in a turn of its own: the handler and, when
    it throws, its [catch] before anything else happens. *)
Definition dispatch (ws : nat) (remote : string) (msg : value) (s : State) : State :=
  match _handleMessage ws msg remote s with
  | (Normal _, s') => s'
  | (Throw e, s') => snd (report remote e s')
  end.

Definition _handleDisconnect (ws : nat) : M unit :=
  let* tag := gets (fun s => deviceId_of s ws) in
  if truthy tag then
    let* _ := modify (fun s => with_clients (Map.delete tag (clients s)) s) in
    let* shown := lift (to_String tag) in
    let* _ := log ("Device disconnected: " +:+ shown) in
    emit (deviceDisconnected tag)
  else ret tt.

(** The socket's ['close'] listener; the transport is closed by then.
    Nothing catches what the handler throws: the state is the one it has
    reached. *)
Definition on_close (ws : nat) (s : State) : State :=
  snd (_handleDisconnect ws (set_readyState ws CLOSED s)).

(** Frames received one after the other on one socket. *)
Definition deliver (ws : nat) (datas : list string) (s : State) : State :=
  fold_left (fun s data => on_message ws data s) datas s.

(** Parsed messages handled one after the other on one socket. *)
Definition dispatch_all (ws : nat) (remote : string) (msgs : list value) (s : State)
  : State :=
  fold_left (fun s msg => handle ws remote msg s) msgs s.

(** [msg] takes the handshake branch of [_handleMessage]. *)
Definition is_connect (msg : value) : bool :=
  strict_eq_str (opt_member msg "method") "connect"
  || strict_eq_str (opt_member msg "method") "gateway.connect".

(** ... and the token it presents is [tok]. *)
Definition accepted (tok : string) (msg : value) : bool :=
  is_connect msg &&
  match _extractToken msg with
  | Normal t => strict_eq_str t tok
  | Throw _ => false
  end.

(** A connect request that presents another token than [tok] and whose
    device id has a string form. *)
Definition wrong_token_request (tok remote : string) (msg : value) : Prop :=
  is_connect msg = true /\ accepted tok msg = false /\
  exists device shown,
    resolve_device msg remote = Normal device /\ to_String device = Normal shown.

(** A request was silently ignored when nothing reached the peer or the
    application: the trace grew by console lines at most. *)
Definition silently_ignored (s s' : State) : Prop :=
  wire (trace s') = wire (trace s).

(** ** Sample worlds *)

(** A gateway created with the token 'secret' and default port and debug. *)
Definition fresh_gateway : State :=
  constructor (mkOptions None (Some "secret") None).

(** ... to which one peer has connected: socket 0, open and untagged. *)
Definition one_socket : State :=
  snd (on_connection "10.0.0.2" 50001 fresh_gateway).

(** ... and has paired as 'd1'. *)
Definition paired_socket : State :=
  dispatch 0 "10.0.0.2:50001" (connect_request "secret" "d1" "1") one_socket.

(** ... while a second peer has connected: socket 1, open and untagged. *)
Definition two_sockets : State :=
  snd (on_connection "10.0.0.3" 50002 paired_socket).

(** [paired_socket] once the transport of socket 0 has started to close. *)
Definition closing_socket : State := set_readyState 0 CLOSING paired_socket.

(** A request with a method the gateway does not know. *)
Definition ping_request : value :=
  VObj literal [("method", VStr "ping"); ("id", VStr "9")].

(** ** The pairing code *)

(** What the host supplies to [getQrCode]: [os.networkInterfaces()] as the
    list of its entries in key order, [execPromise(cmd)] as the stdout of
    the command or its rejection, [String.prototype.trim], and
    [QRCode.toDataURL]. *)
Variable os_networkInterfaces : list (string * list NetworkInterfaceInfo).
Variable execPromise : string -> completion string.
Variable String_trim : string -> string.
Variable QRCode_toDataURL : string -> completion string.

(** The three [startsWith] tests of [_getLanIps]. *)
Definition lan_prefix (a : string) : bool :=
  String.prefix "192.168." a || String.prefix "10." a || String.prefix "172." a.

(** The body of the inner loop: [results.push(net.address)] behind the two
    [if]s. *)
Definition push_if_lan (results : list string) (net : NetworkInterfaceInfo)
  : list string :=
  if strict_eq_str (family net) "IPv4" && negb (internal net) then
    if lan_prefix (address net) then results ++ [address net] else results
  else results.

Definition _getLanIps : list string :=
  fold_left (fun results entry => fold_left push_if_lan (snd entry) results)
            os_networkInterfaces [].

Definition tailscale_commands : list string :=
  ["tailscale ip -4";
   "/Applications/Tailscale.app/Contents/MacOS/Tailscale ip -4";
   "/usr/local/bin/tailscale ip -4";
   "/opt/homebrew/bin/tailscale ip -4"].

(** The [for] loop of [_getTailscaleIp] over the commands that are left;
    [None] is its [null]. *)
Fixpoint first_tailscale_ip (commands : list string) : option string :=
  match commands with
  | [] => None
  | cmd :: rest =>
      match execPromise cmd with
      | Normal stdout =>
          if truthy (VStr stdout) && truthy (VStr (String_trim stdout))
          then Some (String_trim stdout)
          else first_tailscale_ip rest
      | Throw _ => first_tailscale_ip rest
      end
  end.

Definition _getTailscaleIp : option string := first_tailscale_ip tailscale_commands.

(** [ips.includes(x)]. *)
Definition includes (ips : list string) (x : string) : bool :=
  existsb (String.eqb x) ips.

(** The [ips] array of [getQrCode] when the payload is built. *)
Definition qr_ips (useTailscale : bool) : list string :=
  let ips := _getLanIps in
  if useTailscale then
    match _getTailscaleIp with
    | Some tsIp =>
        if truthy (VStr tsIp) && negb (includes ips tsIp) then tsIp :: ips else ips
    | None => ips
    end
  else ips.

Definition qr_payload (ips : list string) (s : State) : value :=
  VObj literal
    [("type", VStr "clawdbot-gateway");
     ("version", VNum 1);
     ("ips", VArr literal (map VStr ips));
     ("port", VNum (Z.of_N (port s)));
     ("token", VStr (token s));
     ("protocol", VStr "ws")].

(** [getQrCode(useTailscale = false)]. *)
Definition getQrCode (useTailscale : bool) (s : State) : completion string :=
  QRCode_toDataURL (JSON_stringify (qr_payload (qr_ips useTailscale) s)).

(** ** The event loop *)

(** What can happen to a running gateway: the server accepts a peer, a
    socket receives a frame, a transport starts to close (the library moves
    it to CLOSING on its own), a transport has closed, the application
    calls [sendText] or [start], a turn of the event loop ends and its
    microtasks run, and the server reports an error. *)
Inductive event : Type :=
| accepts (remoteAddress : string) (remotePort : N)
| receives (ws : nat) (data : string)
| closing (ws : nat)
| closes (ws : nat)
| sends (device text options : value)
| starts
| microtasks
| server_error (err : string) (listened : bool).

(** The state an event leaves, whether its handler returns or throws. *)
Definition step (e : event) (s : State) : State :=
  match e with
  | accepts remoteAddress remotePort => snd (on_connection remoteAddress remotePort s)
  | receives ws data => on_message ws data s
  | closing ws => set_readyState ws CLOSING s
  | closes ws => on_close ws s
  | sends device text options => snd (sendText device text options s)
  | starts => snd (start s)
  | microtasks => run_microtasks s
  | server_error err listened => snd (on_server_error err listened s)
  end.

Definition run (events : list event) (s : State) : State :=
  fold_left (fun s e => step e s) events s.

(** A console line that [log] wrote. *)
Definition from_log (e : effect) : Prop :=
  match e with
  | Console line => String.prefix "[RabbitGateway] " line = true
  | _ => True
  end.

(** The console line of the server's ['error'] listener. *)
Definition error_line (err : string) : effect :=
  Console ("Rabbit Gateway Error: " +:+ err).

Definition is_server_error (e : event) : bool :=
  match e with server_error _ _ => true | _ => false end.

(** What no handler undoes: from [s] to [s'] the port, the debug flag and
    the token are kept, every socket keeps its transport state and its
    remote address, and the trace grows by effects [t] whose frames go to
    sockets that are open and, with debug off, whose console lines all come
    from [log]. *)
Definition advances (s s' : State) : Prop :=
  port s' = port s /\ debug s' = debug s /\ token s' = token s /\
  readyState <$> sockets s' = readyState <$> sockets s /\
  remoteInfo <$> sockets s' = remoteInfo <$> sockets s /\
  exists t,
    trace s' = trace s ++ t /\
    (forall ws f, In (Send ws f) t -> readyState_of s ws = OPEN) /\
    (debug s = false -> Forall from_log t).

(** From [s] to [s'] frames were written on socket [ws] only. *)
Definition writes_only_on (ws : nat) (s s' : State) : Prop :=
  exists t,
    trace s' = trace s ++ t /\
    forall ws' f, In (Send ws' f) t -> ws' = ws.

(** No rejected handler was added or settled, and [JSON.parse] did not run. *)
Definition same_queue (s s' : State) : Prop :=
  pending s' = pending s /\ parse_calls s' = parse_calls s.

(** A computation keeps a relation between the state it starts in and the
    state it ends in, whether it returns or throws. *)
Definition keeps {A} (R : State -> State -> Prop) (m : M A) : Prop :=
  forall s, R s (snd (m s)).

(** Every registry entry leads to a socket that exists and is tagged. *)
Definition registry_of_paired (s : State) : Prop :=
  forall device ws,
    Map.get device (clients s) = Some ws ->
    exists w, sockets s !! ws = Some w /\ truthy (deviceId w) = true.

(** A peer connects and pairs as 'd1'. *)
Definition pairing_events : list event :=
  [accepts "10.0.0.2" 50001;
   receives 0 (sample_stringify (connect_request "secret" "d1" "1"))].

(** Two peers connect and each pairs with the array [[1]] as its device
    id. *)
Definition array_pairing_events : list event :=
  [accepts "10.0.0.2" 50001;
   accepts "10.0.0.3" 50002;
   receives 0 (sample_stringify (array_id_request "secret" "5"));
   receives 1 (sample_stringify (array_id_request "secret" "5"))].

(** A request with a wrong token under [params.auth] and the gateway token
    at the top level. *)
Definition shadowed_token_request : value :=
  VObj literal
    [("method", VStr "connect");
     ("params", VObj literal [("auth", VObj literal [("token", VStr "guess")])]);
     ("token", VStr "secret")].

(** ** State bookkeeping *)

Lemma wire_app (t u : list effect) : wire (t ++ u) = wire t ++ wire u.
Proof.
  induction t as [|e t IH]; simpl; [reflexivity|].
  destruct (is_console e); simpl; now rewrite IH.
Qed.

Lemma console_app (t u : list effect) : console (t ++ u) = console t ++ console u.
Proof.
  induction t as [|e t IH]; simpl; [reflexivity|].
  destruct e; simpl; now rewrite IH.
Qed.

Lemma frames_app (t u : list effect) : frames (t ++ u) = frames t ++ frames u.
Proof.
  induction t as [|e t IH]; simpl; [reflexivity|].
  destruct e; simpl; now rewrite IH.
Qed.

Lemma notifications_app (t u : list effect) :
  notifications (t ++ u) = notifications t ++ notifications u.
Proof.
  induction t as [|e t IH]; simpl; [reflexivity|].
  destruct e; simpl; now rewrite IH.
Qed.

Lemma member_defined v k : nullish v = false -> member v k = Normal (opt_member v k).
Proof. intros H. unfold member. now rewrite H. Qed.

Lemma or_else_Normal a b :
  Normal a ||| Normal b = Normal (if truthy a then a else b).
Proof. unfold or_else. now destruct (truthy a). Qed.

(** A request that is no [null] has a device id: the first truthy candidate,
    or the one made from the remote address. *)
Lemma resolve_device_total msg remote :
  nullish msg = false ->
  exists device, resolve_device msg remote = Normal device /\ truthy device = true.
Proof.
  intros H. unfold resolve_device, _extractDeviceId.
  rewrite !(member_defined msg) by exact H.
  rewrite !or_else_Normal.
  eexists; split; [reflexivity|].
  repeat match goal with
         | |- context [if truthy ?v then _ else _] =>
             let E := fresh "E" in destruct (truthy v) eqn:E; [exact E|]
         end.
  reflexivity.
Qed.

Lemma _extractToken_total msg :
  nullish msg = false -> exists t, _extractToken msg = Normal t.
Proof.
  intros H. unfold _extractToken.
  rewrite !(member_defined msg) by exact H.
  rewrite !or_else_Normal. eexists; reflexivity.
Qed.

(** [_sendJson] writes on an open transport and nowhere else. *)
Lemma _sendJson_open ws data s :
  readyState_of s ws = OPEN ->
  _sendJson ws data s =
    (Normal tt,
     perform (Send ws (JSON_stringify data))
       (if debug s then perform (Console ("OUT > " +:+ JSON_stringify data)) s else s)).
Proof.
  intros H. unfold _sendJson, bind, gets, when, console_log, modify, ret.
  rewrite H; simpl. now destruct (debug s).
Qed.

Lemma _sendJson_not_open ws data s :
  readyState_of s ws <> OPEN -> _sendJson ws data s = (Normal tt, s).
Proof.
  intros H. unfold _sendJson, bind, gets, ret.
  destruct (readyState_of s ws); simpl; congruence.
Qed.

(** ** Reading a handler one step at a time *)

Lemma with_trace_id s : with_trace (trace s) s = s.
Proof. now destruct s. Qed.

Lemma perform_if_spec (b : bool) e s :
  (if b then perform e s else s) = perform_if b e s.
Proof.
  unfold perform_if, perform. destruct b; [reflexivity|].
  now rewrite app_nil_r, with_trace_id.
Qed.

Lemma wire_debug_line (b : bool) line : wire (if b then [Console line] else []) = [].
Proof. now destruct b. Qed.

Lemma frames_debug_line (b : bool) line :
  frames (if b then [Console line] else []) = [].
Proof. now destruct b. Qed.

Lemma strict_eq_str_refl t : strict_eq_str (VStr t) t = true.
Proof. simpl. apply String.eqb_refl. Qed.

Lemma bind_gets {A B} (g : State -> A) (k : A -> M B) s :
  bind (gets g) k s = k (g s) s.
Proof. reflexivity. Qed.

Lemma bind_modify {B} (g : State -> State) (k : unit -> M B) s :
  bind (modify g) k s = k tt (g s).
Proof. reflexivity. Qed.

Lemma bind_lift_Normal {A B} (a : A) (k : A -> M B) s :
  bind (lift (Normal a)) k s = k a s.
Proof. reflexivity. Qed.

Lemma bind_lift_Throw {A B} (e : string) (k : A -> M B) s :
  bind (lift (Throw e)) k s = (Throw e, s).
Proof. reflexivity. Qed.

Lemma bind_ret {A B} (a : A) (k : A -> M B) s : bind (ret a) k s = k a s.
Proof. reflexivity. Qed.

Lemma bind_log {B} (line : string) (k : unit -> M B) s :
  bind (log line) k s = k tt (perform (Console ("[RabbitGateway] " +:+ line)) s).
Proof. reflexivity. Qed.

Lemma bind_emit {B} (n : notification) (k : unit -> M B) s :
  bind (emit n) k s = k tt (perform (Emit n) s).
Proof. reflexivity. Qed.

Lemma bind_debug_line {B} (b : bool) (line : string) (k : unit -> M B) s :
  bind (when b (console_log line)) k s = k tt (perform_if b (Console line) s).
Proof. rewrite <- perform_if_spec. now destruct b. Qed.

Lemma bind_new_uuid {B} (k : string -> M B) s :
  bind new_uuid k s = k (uuidv4 (uuid_calls s)) (with_uuid_calls (S (uuid_calls s)) s).
Proof. reflexivity. Qed.

Lemma bind_now {B} (k : value -> M B) s :
  bind now k s =
  k (VNum (Date_now (clock_calls s))) (with_clock_calls (S (clock_calls s)) s).
Proof. reflexivity. Qed.

Lemma bind_sendJson_open {B} ws data (k : unit -> M B) s :
  readyState_of s ws = OPEN ->
  bind (_sendJson ws data) k s =
  k tt (perform (Send ws (JSON_stringify data))
          (perform_if (debug s) (Console ("OUT > " +:+ JSON_stringify data)) s)).
Proof.
  intros H. unfold bind at 1. rewrite _sendJson_open by exact H.
  now rewrite perform_if_spec.
Qed.

Lemma bind_sendJson_not_open {B} ws data (k : unit -> M B) s :
  readyState_of s ws <> OPEN -> bind (_sendJson ws data) k s = k tt s.
Proof. intros H. unfold bind at 1. now rewrite _sendJson_not_open. Qed.

(** Whatever the transport state, [_sendJson] returns normally and only
    extends the trace. *)
Lemma _sendJson_cases ws data s :
  exists t, _sendJson ws data s = (Normal tt, with_trace (trace s ++ t) s).
Proof.
  destruct (decide (readyState_of s ws = OPEN)) as [H|H].
  - rewrite _sendJson_open by exact H. rewrite perform_if_spec.
    exists ((if debug s then [Console ("OUT > " +:+ JSON_stringify data)] else [])
            ++ [Send ws (JSON_stringify data)]).
    unfold perform, perform_if; cbn. now rewrite app_assoc.
  - rewrite _sendJson_not_open by exact H. exists [].
    now rewrite app_nil_r, with_trace_id.
Qed.

Lemma same_gateway_refl s : same_gateway s s.
Proof. now repeat split. Qed.

Lemma same_gateway_trans s1 s2 s3 :
  same_gateway s1 s2 -> same_gateway s2 s3 -> same_gateway s1 s3.
Proof.
  unfold same_gateway. intros (?&?&?&?&?&?) (?&?&?&?&?&?).
  repeat split; congruence.
Qed.

(** ** SameValueZero and the registry *)

Lemma same_value_zero_key a b : same_value_zero a b = true <-> key_of a = key_of b.
Proof.
  destruct a as [| |x|x|x|r xs|r xs], b as [| |y|y|y|r' ys|r' ys]; simpl;
    try (split; [discriminate|intros [=]]); try (split; reflexivity).
  - split; [intros H; apply Bool.eqb_prop in H; now subst|].
    intros [= ->]. now destruct y.
  - rewrite Z.eqb_eq. split; [now intros ->|now intros [= ->]].
  - rewrite String.eqb_eq. split; [now intros ->|now intros [= ->]].
  - rewrite bool_decide_eq_true. split; [now intros ->|now intros [= ->]].
  - rewrite bool_decide_eq_true. split; [now intros ->|now intros [= ->]].
Qed.

(** SameValueZero relates every value to itself. *)
Lemma same_value_zero_refl v : same_value_zero v v = true.
Proof. now apply same_value_zero_key. Qed.

Lemma same_value_zero_false a b : same_value_zero a b = false <-> key_of a <> key_of b.
Proof.
  rewrite <- same_value_zero_key. now destruct (same_value_zero a b).
Qed.

(** SameValueZero sees of its operands what [key_of] keeps. *)
Lemma same_value_zero_congr a a' b b' :
  key_of a = key_of a' -> key_of b = key_of b' ->
  same_value_zero a b = same_value_zero a' b'.
Proof.
  intros Ha Hb. destruct (same_value_zero a' b') eqn:E.
  - apply same_value_zero_key. apply same_value_zero_key in E. congruence.
  - apply same_value_zero_false. apply same_value_zero_false in E. congruence.
Qed.

Lemma Map_get_congr k k' m : key_of k = key_of k' -> Map.get k m = Map.get k' m.
Proof.
  intros H. induction m as [|[k0 v0] m IH]; cbn; [reflexivity|].
  now rewrite (same_value_zero_congr k k' k0 k0 H eq_refl), IH.
Qed.

Lemma Map_get_set_eq k v m : Map.get k (Map.set k v m) = Some v.
Proof.
  induction m as [|[k' v'] m IH]; simpl.
  - now rewrite same_value_zero_refl.
  - destruct (same_value_zero k k') eqn:E; simpl; now rewrite E.
Qed.

Lemma Map_get_delete_eq k m : Map.get k (Map.delete k m) = None.
Proof.
  induction m as [|[k' v'] m IH]; cbn; [reflexivity|].
  destruct (same_value_zero k k') eqn:E; cbn; [exact IH|]. now rewrite E.
Qed.

Lemma Map_get_set_ne k k' v m :
  same_value_zero k k' = false -> Map.get k (Map.set k' v m) = Map.get k m.
Proof.
  intros Hne. induction m as [|[k0 v0] m IH]; cbn.
  - now rewrite Hne.
  - destruct (same_value_zero k' k0) eqn:E; cbn; [|now rewrite IH].
    apply same_value_zero_key in E.
    now rewrite <- (same_value_zero_congr k k k' k0 eq_refl E), Hne.
Qed.

Lemma Map_get_delete_ne k k' m :
  same_value_zero k k' = false -> Map.get k (Map.delete k' m) = Map.get k m.
Proof.
  intros Hne. induction m as [|[k0 v0] m IH]; cbn; [reflexivity|].
  destruct (same_value_zero k' k0) eqn:E; cbn; [|now rewrite IH].
  apply same_value_zero_key in E.
  now rewrite IH, <- (same_value_zero_congr k k k' k0 eq_refl E), Hne.
Qed.

Lemma Map_get_set_Some k k' v m x :
  Map.get k (Map.set k' v m) = Some x -> x = v \/ Map.get k m = Some x.
Proof.
  destruct (same_value_zero k k') eqn:E.
  - apply same_value_zero_key in E.
    rewrite (Map_get_congr k k' _ E), Map_get_set_eq. intros [= <-]. now left.
  - rewrite Map_get_set_ne by exact E. now right.
Qed.

Lemma Map_get_delete_Some k k' m x :
  Map.get k (Map.delete k' m) = Some x -> Map.get k m = Some x.
Proof.
  destruct (same_value_zero k k') eqn:E.
  - apply same_value_zero_key in E.
    now rewrite (Map_get_congr k k' _ E), Map_get_delete_eq.
  - now rewrite Map_get_delete_ne.
Qed.

(** ** The handshake *)

Ltac socket_still_open H :=
  rewrite <- H; unfold readyState_of; cbn;
  rewrite ?list_lookup_alter_eq;
  first [reflexivity | now destruct (sockets _ !! _)].

Ltac flatten_trace :=
  cbn [trace perform perform_if with_trace with_clients with_sockets tag_socket
       with_uuid_calls with_clock_calls with_parse_calls with_pending
       debug uuid_calls clock_calls];
  rewrite <- ?app_assoc; cbn [app].

Lemma is_connect_defined msg : is_connect msg = true -> nullish msg = false.
Proof. now destruct msg. Qed.

Lemma accepted_is_connect tok msg : accepted tok msg = true -> is_connect msg = true.
Proof. unfold accepted. intros H. now apply andb_true_iff in H as [? _]. Qed.

Lemma readyState_of_Some s ws w :
  sockets s !! ws = Some w -> readyState_of s ws = readyState w.
Proof. intros H. unfold readyState_of. now rewrite H. Qed.

(** The accepting branch on an open socket, effect by effect. *)
Lemma handle_connect_accepted ws msg remote s device shown :
  readyState_of s ws = OPEN ->
  is_connect msg = true ->
  _extractToken msg = Normal (VStr (token s)) ->
  resolve_device msg remote = Normal device ->
  to_String device = Normal shown ->
  exists s',
    _handleMessage ws msg remote s = (Normal tt, s') /\
    trace s' =
      trace s
      ++ (if debug s then [Console ("IN < " +:+ JSON_stringify msg)] else [])
      ++ [Console ("[RabbitGateway] Device Paired: " +:+ shown)]
      ++ (if debug s
          then [Console ("OUT > " +:+ JSON_stringify
                  (pair_approved_event device (uuidv4 (uuid_calls s))))]
          else [])
      ++ [Send ws (JSON_stringify
            (pair_approved_event device (uuidv4 (uuid_calls s))))]
      ++ (if debug s
          then [Console ("OUT > " +:+ JSON_stringify
                  (paired_response (opt_member msg "id")
                     (VNum (Date_now (clock_calls s)))))]
          else [])
      ++ [Send ws (JSON_stringify
            (paired_response (opt_member msg "id")
               (VNum (Date_now (clock_calls s)))))]
      ++ (if debug s
          then [Console ("OUT > " +:+ JSON_stringify
                  (connect_ok_event device (VNum (Date_now (S (clock_calls s))))))]
          else [])
      ++ [Send ws (JSON_stringify
            (connect_ok_event device (VNum (Date_now (S (clock_calls s))))))]
      ++ [Emit (deviceConnected device remote)] /\
    clients s' = Map.set device ws (clients s) /\
    sockets s' =
      alter (fun w => mkWebSocket (readyState w) device (remoteInfo w)) ws (sockets s) /\
    token s' = token s /\ debug s' = debug s /\
    uuid_calls s' = S (uuid_calls s) /\ clock_calls s' = S (S (clock_calls s)).
Proof.
  intros Hrs Hc Ht Hd Hs.
  pose proof (is_connect_defined _ Hc) as Hnn.
  unfold is_connect in Hc.
  unfold _handleMessage.
  rewrite bind_gets, bind_debug_line, (member_defined msg) by exact Hnn.
  rewrite bind_lift_Normal, Hc, Ht, bind_lift_Normal, Hd, bind_lift_Normal, bind_gets.
  cbn [token perform_if with_trace].
  rewrite strict_eq_str_refl. cbn [negb].
  rewrite !bind_modify, Hs, bind_lift_Normal, bind_log, bind_new_uuid.
  rewrite bind_sendJson_open by socket_still_open Hrs.
  rewrite (member_defined msg) by exact Hnn.
  rewrite bind_lift_Normal, bind_now.
  rewrite bind_sendJson_open by socket_still_open Hrs.
  rewrite bind_now.
  rewrite bind_sendJson_open by socket_still_open Hrs.
  unfold emit, modify.
  eexists; split; [reflexivity|].
  split; [flatten_trace; reflexivity|].
  now repeat split.
Qed.

(** The accepting branch when the device id has no string form: the socket
    is registered and tagged, and the template literal of the next line
    throws. *)
Lemma handle_connect_unprintable ws msg remote s device e :
  is_connect msg = true ->
  _extractToken msg = Normal (VStr (token s)) ->
  resolve_device msg remote = Normal device ->
  to_String device = Throw e ->
  _handleMessage ws msg remote s =
    (Throw e,
     tag_socket ws device
       (with_clients (Map.set device ws (clients s))
          (perform_if (debug s) (Console ("IN < " +:+ JSON_stringify msg)) s))).
Proof.
  intros Hc Ht Hd Hs.
  pose proof (is_connect_defined _ Hc) as Hnn.
  unfold is_connect in Hc.
  unfold _handleMessage.
  rewrite bind_gets, bind_debug_line, (member_defined msg) by exact Hnn.
  rewrite bind_lift_Normal, Hc, Ht, bind_lift_Normal, Hd, bind_lift_Normal, bind_gets.
  cbn [token perform_if with_trace].
  rewrite strict_eq_str_refl. cbn [negb].
  now rewrite !bind_modify, Hs, bind_lift_Throw.
Qed.

(** The rejecting branch on an open socket. *)
Lemma handle_connect_rejected ws msg remote s device shown :
  readyState_of s ws = OPEN ->
  is_connect msg = true ->
  accepted (token s) msg = false ->
  resolve_device msg remote = Normal device ->
  to_String device = Normal shown ->
  exists s',
    _handleMessage ws msg remote s = (Normal tt, s') /\
    trace s' =
      trace s
      ++ (if debug s then [Console ("IN < " +:+ JSON_stringify msg)] else [])
      ++ [Console ("[RabbitGateway] Auth failed for device " +:+ shown)]
      ++ (if debug s
          then [Console ("OUT > " +:+ JSON_stringify
                  (unauthorized_response (opt_member msg "id")))]
          else [])
      ++ [Send ws (JSON_stringify (unauthorized_response (opt_member msg "id")))] /\
    same_gateway s s' /\
    uuid_calls s' = uuid_calls s /\ clock_calls s' = clock_calls s /\
    pending s' = pending s.
Proof.
  intros Hrs Hc Hacc Hd Hs.
  pose proof (is_connect_defined _ Hc) as Hnn.
  destruct (_extractToken_total _ Hnn) as [t Ht].
  unfold accepted in Hacc. rewrite Hc, Ht in Hacc. cbn in Hacc.
  unfold is_connect in Hc.
  unfold _handleMessage.
  rewrite bind_gets, bind_debug_line, (member_defined msg) by exact Hnn.
  rewrite bind_lift_Normal, Hc, Ht, bind_lift_Normal, Hd, bind_lift_Normal, bind_gets.
  cbn [token perform_if with_trace].
  rewrite Hacc. cbn [negb].
  rewrite Hs, bind_lift_Normal, bind_log, (member_defined msg) by exact Hnn.
  rewrite bind_lift_Normal.
  rewrite _sendJson_open by socket_still_open Hrs.
  rewrite perform_if_spec.
  eexists; split; [reflexivity|].
  split; [flatten_trace; reflexivity|].
  now repeat split.
Qed.


Lemma handle_Normal ws remote msg s s' :
  _handleMessage ws msg remote s = (Normal tt, s') -> handle ws remote msg s = s'.
Proof. intros H. unfold handle. now rewrite H. Qed.

Lemma dispatch_Normal ws remote msg s s' :
  _handleMessage ws msg remote s = (Normal tt, s') -> dispatch ws remote msg s = s'.
Proof. intros H. unfold dispatch. now rewrite H. Qed.


(** ** Everything but an accepted handshake *)

Lemma bind_sendJson_cases {B} ws data (k : unit -> M B) s :
  exists t, bind (_sendJson ws data) k s = k tt (with_trace (trace s ++ t) s).
Proof.
  destruct (_sendJson_cases ws data s) as [t Ht].
  exists t. unfold bind at 1. now rewrite Ht.
Qed.

(** chat.send with params: the notification, then the acknowledgement when
    the transport is open. *)
Lemma handle_chat_send ws w msg remote s :
  sockets s !! ws = Some w ->
  opt_member msg "method" = VStr "chat.send" ->
  nullish (opt_member msg "params") = false ->
  exists s',
    _handleMessage ws msg remote s = (Normal tt, s') /\
    wire (trace s') =
      wire (trace s)
      ++ [Emit (message (if truthy (deviceId w) then deviceId w else VStr "unknown")
                  (opt_member (opt_member msg "params") "message")
                  (opt_member (opt_member msg "params") "sessionKey")
                  (opt_member (opt_member msg "params") "idempotencyKey"))]
      ++ (if is_OPEN (readyState w)
          then [Send ws (JSON_stringify (ack_response (opt_member msg "id")))]
          else []) /\
    same_gateway s s'.
Proof.
  intros Hw Hm Hp.
  assert (Hnn : nullish msg = false) by (destruct msg; easy).
  pose proof (readyState_of_Some _ _ _ Hw) as Hrs.
  unfold _handleMessage.
  rewrite bind_gets, bind_debug_line, (member_defined msg) by exact Hnn.
  rewrite bind_lift_Normal, Hm. cbn [strict_eq_str String.eqb Ascii.eqb Bool.eqb orb].
  rewrite bind_gets.
  rewrite !(member_defined msg) by exact Hnn.
  repeat first [ rewrite bind_lift_Normal
               | rewrite (member_defined (opt_member msg "params")) by exact Hp ].
  rewrite bind_emit, bind_lift_Normal.
  destruct (decide (readyState w = OPEN)) as [Ho|Ho].
  - rewrite Ho in *. rewrite _sendJson_open by socket_still_open Hrs.
    rewrite perform_if_spec.
    eexists; split; [reflexivity|]. split; [|unfold same_gateway; cbn; now repeat split].
    flatten_trace. rewrite !wire_app, !wire_debug_line.
    unfold deviceId_of; cbn. now rewrite Hw, ?wire_app, ?wire_debug_line.
  - rewrite _sendJson_not_open.
    2:{ unfold readyState_of in *; cbn. now rewrite Hw. }
    eexists; split; [reflexivity|]. split; [|unfold same_gateway; cbn; now repeat split].
    flatten_trace. rewrite !wire_app, !wire_debug_line.
    unfold deviceId_of; cbn. rewrite Hw.
    destruct (readyState w); try (now destruct Ho); reflexivity.
Qed.

(** chat.send without params: reading [msg.params.message] throws before
    anything is raised or written. *)
Lemma handle_chat_send_without_params ws msg remote s :
  opt_member msg "method" = VStr "chat.send" ->
  nullish (opt_member msg "params") = true ->
  _handleMessage ws msg remote s =
    (Throw (TypeError_message (opt_member msg "params") "message"),
     perform_if (debug s) (Console ("IN < " +:+ JSON_stringify msg)) s).
Proof.
  intros Hm Hp.
  assert (Hnn : nullish msg = false) by (destruct msg; easy).
  unfold _handleMessage.
  rewrite bind_gets, bind_debug_line, (member_defined msg) by exact Hnn.
  rewrite bind_lift_Normal, Hm.
  cbn [strict_eq_str String.eqb Ascii.eqb Bool.eqb orb].
  rewrite bind_gets, (member_defined msg) by exact Hnn.
  rewrite bind_lift_Normal. unfold member at 1.
  now rewrite Hp, bind_lift_Throw.
Qed.

(** A message that is not an accepted handshake leaves the gateway object,
    the registry and every socket as they were, whatever it is, whatever
    state the transport is in and however the handler ends. *)
Lemma _handleMessage_not_accepted ws remote msg s :
  accepted (token s) msg = false ->
  same_gateway s (snd (_handleMessage ws msg remote s)).
Proof.
  intros Hacc. unfold _handleMessage.
  rewrite bind_gets, bind_debug_line.
  destruct (nullish msg) eqn:Hnn.
  { unfold member at 1. rewrite Hnn, bind_lift_Throw. now repeat split. }
  rewrite (member_defined msg) by exact Hnn. rewrite bind_lift_Normal.
  fold (is_connect msg).
  destruct (is_connect msg) eqn:Hc.
  - destruct (_extractToken_total _ Hnn) as [t Ht].
    destruct (resolve_device_total msg remote Hnn) as (device & Hd & _).
    unfold accepted in Hacc. rewrite Hc, Ht in Hacc. cbn in Hacc.
    rewrite Ht, bind_lift_Normal, Hd, bind_lift_Normal, bind_gets.
    cbn [token perform_if with_trace]. rewrite Hacc. cbn [negb].
    destruct (to_String device) as [shown|e];
      [rewrite bind_lift_Normal|rewrite bind_lift_Throw; now repeat split].
    rewrite bind_log, (member_defined msg) by exact Hnn.
    rewrite bind_lift_Normal.
    match goal with
    | |- context [_sendJson ?a ?b ?c] => destruct (_sendJson_cases a b c) as [t' ->]
    end.
    now repeat split.
  - destruct (strict_eq_str (opt_member msg "method") "chat.send"); [|now repeat split].
    rewrite bind_gets.
    rewrite !(member_defined msg) by exact Hnn. rewrite bind_lift_Normal.
    destruct (nullish (opt_member msg "params")) eqn:Hp.
    { unfold member at 1. rewrite Hp, bind_lift_Throw. now repeat split. }
    repeat first [ rewrite bind_lift_Normal
                 | rewrite (member_defined (opt_member msg "params")) by exact Hp ].
    rewrite bind_emit, bind_lift_Normal.
    match goal with
    | |- context [_sendJson ?a ?b ?c] => destruct (_sendJson_cases a b c) as [t' ->]
    end.
    now repeat split.
Qed.

(** The accepting branch registers and tags the socket whatever the
    transport state and whether or not the handler reaches its end. *)
Lemma _handleMessage_accepted ws remote msg s device :
  accepted (token s) msg = true ->
  resolve_device msg remote = Normal device ->
  let s' := snd (_handleMessage ws msg remote s) in
  sockets s' =
    alter (fun w => mkWebSocket (readyState w) device (remoteInfo w)) ws (sockets s) /\
  clients s' = Map.set device ws (clients s) /\
  token s' = token s.
Proof.
  intros Hacc Hd. unfold accepted in Hacc.
  apply andb_true_iff in Hacc as [Hc Ht].
  pose proof (is_connect_defined _ Hc) as Hnn.
  destruct (_extractToken msg) as [t|] eqn:Het; [|discriminate].
  unfold _handleMessage.
  rewrite bind_gets, bind_debug_line, (member_defined msg) by exact Hnn.
  rewrite bind_lift_Normal. fold (is_connect msg).
  rewrite Hc, Het, bind_lift_Normal, Hd, bind_lift_Normal, bind_gets.
  cbn [token perform_if with_trace]. rewrite Ht. cbn [negb].
  rewrite !bind_modify.
  destruct (to_String device) as [shown|e];
    [rewrite bind_lift_Normal|rewrite bind_lift_Throw; now repeat split].
  rewrite bind_log, bind_new_uuid.
  match goal with
  | |- context [bind (_sendJson ?a ?b) ?k ?c] =>
      destruct (bind_sendJson_cases a b k c) as [t1 ->]
  end.
  rewrite (member_defined msg) by exact Hnn.
  rewrite bind_lift_Normal, bind_now.
  match goal with
  | |- context [bind (_sendJson ?a ?b) ?k ?c] =>
      destruct (bind_sendJson_cases a b k c) as [t2 ->]
  end.
  rewrite bind_now.
  match goal with
  | |- context [bind (_sendJson ?a ?b) ?k ?c] =>
      destruct (bind_sendJson_cases a b k c) as [t3 ->]
  end.
  now repeat split.
Qed.

(** Neither the [catch] nor the queue of rejected handlers touches the
    gateway object, the registry or a socket. *)
Lemma dispatch_gateway ws remote msg s :
  same_gateway (snd (_handleMessage ws msg remote s)) (dispatch ws remote msg s).
Proof.
  unfold dispatch. destruct (_handleMessage ws msg remote s) as [[u|e] s1]; cbn;
    now repeat split.
Qed.

Lemma handle_gateway ws remote msg s :
  same_gateway (snd (_handleMessage ws msg remote s)) (handle ws remote msg s).
Proof.
  unfold handle. destruct (_handleMessage ws msg remote s) as [[u|e] s1]; cbn;
    now repeat split.
Qed.

Lemma dispatch_not_accepted ws remote msg s :
  accepted (token s) msg = false -> same_gateway s (dispatch ws remote msg s).
Proof.
  intros Hacc.
  apply (same_gateway_trans _ (snd (_handleMessage ws msg remote s)));
    [now apply _handleMessage_not_accepted|apply dispatch_gateway].
Qed.

Lemma handle_not_accepted ws remote msg s :
  accepted (token s) msg = false -> same_gateway s (handle ws remote msg s).
Proof.
  intros Hacc.
  apply (same_gateway_trans _ (snd (_handleMessage ws msg remote s)));
    [now apply _handleMessage_not_accepted|apply handle_gateway].
Qed.

Lemma dispatch_accepted ws remote msg s device :
  accepted (token s) msg = true ->
  resolve_device msg remote = Normal device ->
  let s' := dispatch ws remote msg s in
  sockets s' =
    alter (fun w => mkWebSocket (readyState w) device (remoteInfo w)) ws (sockets s) /\
  clients s' = Map.set device ws (clients s) /\
  token s' = token s.
Proof.
  intros Hacc Hd.
  destruct (_handleMessage_accepted ws remote msg s device Hacc Hd) as (Hso & Hcl & Ht).
  destruct (dispatch_gateway ws remote msg s) as (_ & _ & Ht' & _ & Hcl' & Hso').
  cbn zeta. repeat split; congruence.
Qed.

Lemma handle_accepted ws remote msg s device :
  accepted (token s) msg = true ->
  resolve_device msg remote = Normal device ->
  let s' := handle ws remote msg s in
  sockets s' =
    alter (fun w => mkWebSocket (readyState w) device (remoteInfo w)) ws (sockets s) /\
  clients s' = Map.set device ws (clients s) /\
  token s' = token s.
Proof.
  intros Hacc Hd.
  destruct (_handleMessage_accepted ws remote msg s device Hacc Hd) as (Hso & Hcl & Ht).
  destruct (handle_gateway ws remote msg s) as (_ & _ & Ht' & _ & Hcl' & Hso').
  cbn zeta. repeat split; congruence.
Qed.

(** C3: a request whose method is neither connect, gateway.connect nor
    chat.send is silently ignored on every connection: no frame, no error
    response, no notification.  A chat.send request is not ignored on a
    connection that was never paired when it carries params: it is raised
    as a message notification under the device id 'unknown' and, the
    transport being open, acknowledged with [{type:'res', id, ok:true}].
    Without params the handler throws on reading [msg.params.message]
    before anything is raised or written. *)
Theorem requests_outside_the_handshake ws w msg remote s :
  sockets s !! ws = Some w ->
  is_connect msg = false ->
  (strict_eq_str (opt_member msg "method") "chat.send" = false ->
   let r := _handleMessage ws msg remote s in
   silently_ignored s (snd r) /\
   same_gateway s (snd r) /\
   trace (snd r) =
     trace s ++ (if debug s then [Console ("IN < " +:+ JSON_stringify msg)] else []) /\
   (nullish msg = false -> fst r = Normal tt)) /\
  (opt_member msg "method" = VStr "chat.send" ->
   truthy (deviceId w) = false ->
   (nullish (opt_member msg "params") = false ->
    exists s',
      _handleMessage ws msg remote s = (Normal tt, s') /\
      wire (trace s') =
        wire (trace s)
        ++ [Emit (message (VStr "unknown")
                    (opt_member (opt_member msg "params") "message")
                    (opt_member (opt_member msg "params") "sessionKey")
                    (opt_member (opt_member msg "params") "idempotencyKey"))]
        ++ (if is_OPEN (readyState w)
            then [Send ws (JSON_stringify
                    (VObj literal
                       [("type", VStr "res");
                        ("id", opt_member msg "id");
                        ("ok", VBool true)]))]
            else []) /\
      same_gateway s s') /\
   (nullish (opt_member msg "params") = true ->
    exists s',
      _handleMessage ws msg remote s =
        (Throw (TypeError_message (opt_member msg "params") "message"), s') /\
      silently_ignored s s' /\
      same_gateway s s')).
Proof.
  intros Hw Hc. split.
  - intros Hchat r. subst r.
    destruct (nullish msg) eqn:Hnn.
    + assert (E : _handleMessage ws msg remote s =
                  (Throw (TypeError_message msg "method"),
                   perform_if (debug s) (Console ("IN < " +:+ JSON_stringify msg)) s)).
      { unfold _handleMessage. rewrite bind_gets, bind_debug_line.
        unfold member at 1. now rewrite Hnn, bind_lift_Throw. }
      rewrite E. unfold silently_ignored; cbn.
      rewrite wire_app, wire_debug_line, app_nil_r.
      repeat split; try reflexivity. intros H. discriminate H.
    + assert (E : _handleMessage ws msg remote s =
                  (Normal tt,
                   perform_if (debug s) (Console ("IN < " +:+ JSON_stringify msg)) s)).
      { unfold _handleMessage.
        rewrite bind_gets, bind_debug_line, (member_defined msg) by exact Hnn.
        rewrite bind_lift_Normal. fold (is_connect msg). now rewrite Hc, Hchat. }
      rewrite E. unfold silently_ignored; cbn.
      rewrite wire_app, wire_debug_line, app_nil_r.
      now repeat split.
  - intros Hm Htag. split.
    + intros Hp.
      destruct (handle_chat_send ws w msg remote s Hw Hm Hp) as (s' & Hrun & Htr & Hsame).
      rewrite Htag in Htr. now exists s'.
    + intros Hp. rewrite (handle_chat_send_without_params ws msg remote s Hm Hp).
      eexists; split; [reflexivity|]. unfold silently_ignored; cbn.
      rewrite wire_app, wire_debug_line, app_nil_r.
      now repeat split.
Qed.

Lemma on_message_not_accepted ws data s :
  (forall msg, JSON_parse (parse_calls s) data = Normal msg ->
               accepted (token s) msg = false) ->
  same_gateway s (on_message ws data s).
Proof.
  intros H. unfold on_message, parse.
  destruct (sockets s !! ws) as [w|]; [|apply same_gateway_refl].
  destruct (JSON_parse (parse_calls s) data) as [msg|e].
  - eapply same_gateway_trans; [|apply handle_not_accepted; now apply H].
    now repeat split.
  - now repeat split.
Qed.

Lemma deliver_not_accepted ws datas s :
  Forall (fun data =>
            forall call msg, JSON_parse call data = Normal msg ->
                             accepted (token s) msg = false)
         datas ->
  same_gateway s (deliver ws datas s).
Proof.
  revert s. induction datas as [|data datas IH]; intros s Hall; cbn.
  - apply same_gateway_refl.
  - inversion Hall as [|? ? Hd Hrest]; subst.
    pose proof (on_message_not_accepted ws data s (Hd (parse_calls s))) as Hstep.
    eapply same_gateway_trans; [exact Hstep|].
    apply IH. destruct Hstep as (_ & _ & Htok & _). now rewrite Htok.
Qed.

(** C4: the device id a connection is tagged with changes only when a later
    connect (or gateway.connect) request presenting the gateway token arrives
    on that connection, which re-tags it with that request's resolved device
    id; every sequence of other inbound frames, malformed ones included,
    leaves it as it was. *)
Theorem device_tag_changes_only_by_accepted_connect ws w s :
  sockets s !! ws = Some w ->
  (forall datas,
     Forall (fun data =>
               forall call msg, JSON_parse call data = Normal msg ->
                                accepted (token s) msg = false) datas ->
     deviceId_of (deliver ws datas s) ws = deviceId w) /\
  (forall msg device,
     accepted (token s) msg = true ->
     resolve_device msg (remoteInfo w) = Normal device ->
     deviceId_of (dispatch ws (remoteInfo w) msg s) ws = device).
Proof.
  intros Hw. split.
  - intros datas Hall.
    destruct (deliver_not_accepted ws datas s Hall) as (_ & _ & _ & _ & _ & Hso).
    unfold deviceId_of. now rewrite Hso, Hw.
  - intros msg device Hacc Hd.
    destruct (dispatch_accepted ws (remoteInfo w) msg s device Hacc Hd) as (Hso & _).
    unfold deviceId_of. now rewrite Hso, list_lookup_alter_eq, Hw.
Qed.

(** C9: an inbound frame that [JSON.parse] rejects is logged for its
    connection and nothing else happens: the socket keeps its state, no
    frame is written, no notification is raised, and the registry is
    untouched. *)
Theorem malformed_frame_is_only_logged ws w data e s :
  sockets s !! ws = Some w ->
  JSON_parse (parse_calls s) data = Throw e ->
  let s' := on_message ws data s in
  trace s' =
    trace s
    ++ [Console ("[RabbitGateway] Error parsing message from "
                 +:+ remoteInfo w +:+ ": " +:+ e)] /\
  sockets s' = sockets s /\
  readyState_of s' ws = readyState w /\
  clients s' = clients s /\
  notifications (trace s') = notifications (trace s) /\
  frames (trace s') = frames (trace s) /\
  pending s' = pending s.
Proof.
  intros Hw Hp. unfold on_message, parse. rewrite Hw, Hp. cbn.
  unfold readyState_of; cbn. rewrite Hw.
  rewrite notifications_app, frames_app, !app_nil_r.
  now repeat split.
Qed.

(** ** Sending to a device *)

Lemma member_options options k :
  options <> VNull ->
  member (match options with VUndefined => VObj literal [] | _ => options end) k
  = Normal (opt_member options k).
Proof. destruct options; intros H; try reflexivity. now destruct H. Qed.

Lemma bind_assoc {A B C} (m : M A) (f : A -> M B) (g : B -> M C) s :
  bind (bind m f) g s = bind m (fun x => bind (f x) g) s.
Proof. unfold bind. destruct (m s) as [[a|e] s1]; reflexivity. Qed.

(** [sendText] to a registered id, for every transport state. *)
Lemma sendText_registered device text options ws s :
  Map.get device (clients s) = Some ws ->
  options <> VNull ->
  let r := opt_member options "runId" in
  let k := opt_member options "sessionKey" in
  let frame :=
    JSON_stringify
      (chat_event (if truthy r then r else VStr (uuidv4 (uuid_calls s)))
                  (if truthy k then k else VStr "main")
                  text (VNum (Date_now (clock_calls s)))) in
  exists s',
    sendText device text options s = (Normal true, s') /\
    trace s' =
      trace s
      ++ (if is_OPEN (readyState_of s ws)
          then (if debug s then [Console ("OUT > " +:+ frame)] else [])
               ++ [Send ws frame]
          else []) /\
    same_gateway s s' /\
    uuid_calls s' = (if truthy r then uuid_calls s else S (uuid_calls s)) /\
    clock_calls s' = S (clock_calls s).
Proof.
  intros Hreg Hopt r k frame. subst frame.
  unfold sendText. rewrite bind_gets, Hreg.
  rewrite !member_options by exact Hopt. rewrite bind_lift_Normal.
  fold r. fold k.
  destruct (truthy r) eqn:Hr.
  - rewrite bind_ret, bind_lift_Normal, bind_now.
    destruct (decide (readyState_of s ws = OPEN)) as [Ho|Ho].
    + rewrite bind_sendJson_open by (rewrite <- Ho; reflexivity).
      cbn [readyState_of]. rewrite Ho. cbn [is_OPEN].
      eexists; split; [reflexivity|]. flatten_trace.
      unfold same_gateway; cbn. now repeat split.
    + rewrite bind_sendJson_not_open by exact Ho.
      eexists; split; [reflexivity|].
      destruct (readyState_of s ws); try (now destruct Ho);
        cbn; rewrite app_nil_r; now repeat split.
  - rewrite bind_assoc, bind_new_uuid, bind_ret, bind_lift_Normal, bind_now.
    destruct (decide (readyState_of s ws = OPEN)) as [Ho|Ho].
    + rewrite bind_sendJson_open by (rewrite <- Ho; reflexivity).
      rewrite Ho. cbn [is_OPEN].
      eexists; split; [reflexivity|]. flatten_trace.
      unfold same_gateway; cbn. now repeat split.
    + rewrite bind_sendJson_not_open by exact Ho.
      eexists; split; [reflexivity|].
      destruct (readyState_of s ws); try (now destruct Ho);
        cbn; rewrite app_nil_r; now repeat split.
Qed.

(** C7: [sendText] to an id that is absent from the registry (an id with a
    string form, as every string is) returns false; it writes on no
    connection, raises no notification and leaves the registry and every
    socket as they were.  Its only trace is the 'Not connected' log
    line. *)
Theorem sendText_unregistered device text options s shown :
  Map.get device (clients s) = None ->
  to_String device = Normal shown ->
  exists s',
    sendText device text options s = (Normal false, s') /\
    trace s' =
      trace s
      ++ [Console ("[RabbitGateway] Cannot send to " +:+ shown +:+ ": Not connected")] /\
    frames (trace s') = frames (trace s) /\
    notifications (trace s') = notifications (trace s) /\
    clients s' = clients s /\
    sockets s' = sockets s /\
    uuid_calls s' = uuid_calls s /\ clock_calls s' = clock_calls s.
Proof.
  intros Hreg Hs. unfold sendText.
  rewrite bind_gets, Hreg, Hs, bind_lift_Normal, bind_log.
  eexists; split; [reflexivity|]. cbn.
  rewrite frames_app, notifications_app, !app_nil_r.
  now repeat split.
Qed.

(** C8: [sendText] to a registered id on an open transport writes exactly
    one frame there, the chat event with seq 1, state 'final', role
    'assistant', the text as its single content item, stopReason 'stop' and
    all usage counters zero.  With no options the runId is a newly drawn
    uuid and the sessionKey is 'main'; a runId and a sessionKey supplied in
    the options (a truthy value, each on its own) are the ones written, and
    no uuid is drawn when the runId is supplied. *)
Theorem sendText_chat_event device text ws s :
  Map.get device (clients s) = Some ws ->
  readyState_of s ws = OPEN ->
  (exists s',
     sendText device text VUndefined s = (Normal true, s') /\
     frames (trace s') =
       frames (trace s)
       ++ [(ws, JSON_stringify
                  (chat_event (VStr (uuidv4 (uuid_calls s))) (VStr "main") text
                     (VNum (Date_now (clock_calls s)))))] /\
     uuid_calls s' = S (uuid_calls s)) /\
  (forall options,
     options <> VNull ->
     exists s' runId sessionKey,
       sendText device text options s = (Normal true, s') /\
       frames (trace s') =
         frames (trace s)
         ++ [(ws, JSON_stringify
                    (chat_event runId sessionKey text
                       (VNum (Date_now (clock_calls s)))))] /\
       (truthy (opt_member options "runId") = true ->
        runId = opt_member options "runId" /\ uuid_calls s' = uuid_calls s) /\
       (truthy (opt_member options "runId") = false ->
        runId = VStr (uuidv4 (uuid_calls s)) /\ uuid_calls s' = S (uuid_calls s)) /\
       (truthy (opt_member options "sessionKey") = true ->
        sessionKey = opt_member options "sessionKey") /\
       (truthy (opt_member options "sessionKey") = false ->
        sessionKey = VStr "main")) /\
  (forall runId sessionKey ts,
     let payload := opt_member (chat_event runId sessionKey text ts) "payload" in
     opt_member (chat_event runId sessionKey text ts) "type" = VStr "event" /\
     opt_member (chat_event runId sessionKey text ts) "event" = VStr "chat" /\
     opt_member payload "runId" = runId /\
     opt_member payload "sessionKey" = sessionKey /\
     opt_member payload "seq" = VNum 1 /\
     opt_member payload "state" = VStr "final" /\
     opt_member payload "message" =
       VObj literal
         [("role", VStr "assistant");
          ("content", VArr literal [VObj literal [("type", VStr "text"); ("text", text)]]);
          ("timestamp", ts);
          ("stopReason", VStr "stop");
          ("usage", VObj literal [("input", VNum 0); ("output", VNum 0);
                                  ("totalTokens", VNum 0)])]).
Proof.
  intros Hreg Hopen. split; [|split].
  - destruct (sendText_registered device text VUndefined ws s Hreg ltac:(discriminate))
      as (s' & Hrun & Htr & _ & Hu & _).
    exists s'. split; [exact Hrun|]. cbn in Htr, Hu. split; [|exact Hu].
    rewrite Htr, Hopen. cbn [is_OPEN].
    now rewrite !frames_app, frames_debug_line.
  - intros options Hopt.
    destruct (sendText_registered device text options ws s Hreg Hopt)
      as (s' & Hrun & Htrace & _ & Hu & _).
    cbn zeta in Htrace, Hu. rewrite Hopen in Htrace. cbn [is_OPEN] in Htrace.
    exists s'. eexists. eexists. split; [exact Hrun|]. split.
    + rewrite Htrace. rewrite !frames_app, frames_debug_line. reflexivity.
    + split; [|split; [|split]]; intros E; rewrite E in *;
        first [now split | reflexivity].
  - intros runId sessionKey ts. cbn. now repeat split.
Qed.

(** C10: [sendText] to a registered id returns true also when the mapped
    socket's transport is not open; nothing is then written (the frame is
    dropped), so the true it returns does not say a frame was sent. *)
Theorem sendText_true_on_closed_transport device text options ws s :
  Map.get device (clients s) = Some ws ->
  readyState_of s ws <> OPEN ->
  options <> VNull ->
  exists s',
    sendText device text options s = (Normal true, s') /\
    trace s' = trace s /\
    clients s' = clients s /\
    sockets s' = sockets s.
Proof.
  intros Hreg Hclosed Hopt.
  destruct (sendText_registered device text options ws s Hreg Hopt)
    as (s' & Hrun & Htr & (_ & _ & _ & _ & Hcl & Hso) & _).
  exists s'. split; [exact Hrun|].
  destruct (readyState_of s ws); try (now destruct Hclosed);
    cbn in Htr; rewrite app_nil_r in Htr; now repeat split.
Qed.

(** ** Start-up *)

Lemma prefix_refl t : String.prefix t t = true.
Proof.
  induction t as [|c t IH]; cbn; [reflexivity|].
  destruct (ascii_dec c c); [exact IH|congruence].
Qed.

Lemma contains_append p t : contains t (p +:+ t) = true.
Proof.
  induction p as [|c p IH].
  - destruct t as [|a t]; [reflexivity|].
    change (String.prefix (String a t) (String a t) || contains (String a t) t = true).
    now rewrite prefix_refl.
  - change (String.prefix t (String c (p +:+ t)) || contains t (p +:+ t) = true).
    rewrite IH. apply orb_true_r.
Qed.

(** C6: whenever [start()] gets its server, it writes the gateway token to
    the log whatever the debug option is: both of its lines, 'Rabbit
    Gateway listening on port ..' and 'Gateway Token: ' followed by the
    token, go through [log], which does not consult [debug].  When
    [new WebSocket.Server] throws, [start()] throws with it and nothing is
    logged. *)
Theorem start_logs_the_token s :
  (WebSocket_Server (port s) = Normal tt ->
   fst (start s) = Normal tt /\
   console (trace (snd (start s))) =
     console (trace s)
     ++ ["[RabbitGateway] Rabbit Gateway listening on port "
         +:+ number_to_String (Z.of_N (port s));
         "[RabbitGateway] Gateway Token: " +:+ token s] /\
   contains (token s) ("[RabbitGateway] Gateway Token: " +:+ token s) = true /\
   debug (snd (start s)) = debug s) /\
  (forall e, WebSocket_Server (port s) = Throw e -> start s = (Throw e, s)).
Proof.
  split.
  - intros Hserver. unfold start.
    rewrite bind_gets, Hserver, bind_lift_Normal, bind_modify, bind_log, bind_gets.
    cbn. rewrite <- app_assoc, console_app. cbn.
    split; [reflexivity|]. split; [reflexivity|]. split; [|reflexivity].
    apply (contains_append "[RabbitGateway] Gateway Token: ").
  - intros e Hserver. unfold start. now rewrite bind_gets, Hserver, bind_lift_Throw.
Qed.

(** ** Two connections under one device id *)

(** C5, on the code: socket 0 and then socket 1 pair as 'd1', so the
    registry maps 'd1' to socket 1; when socket 0 closes, its handler
    deletes the entry of 'd1' although that entry is socket 1's.  Socket 1
    is still open and tagged 'd1', yet [sendText] to 'd1' now returns false
    and writes nothing. *)
Theorem close_of_replaced_socket_unregisters_device :
  let s0 := constructor (mkOptions None (Some "secret") None) in
  let s1 := snd (on_connection "10.0.0.2" 50001 s0) in
  let s2 := snd (on_connection "10.0.0.3" 50002 s1) in
  let s3 := dispatch 0 "10.0.0.2:50001" (connect_request "secret" "d1" "1") s2 in
  let s4 := dispatch 1 "10.0.0.3:50002" (connect_request "secret" "d1" "2") s3 in
  let s5 := on_close 0 s4 in
  Map.get (VStr "d1") (clients s3) = Some 0%nat /\
  Map.get (VStr "d1") (clients s4) = Some 1%nat /\
  readyState_of s5 1 = OPEN /\
  deviceId_of s5 1 = VStr "d1" /\
  Map.get (VStr "d1") (clients s5) = None /\
  fst (sendText (VStr "d1") (VStr "hello") VUndefined s5) = Normal false /\
  frames (trace (snd (sendText (VStr "d1") (VStr "hello") VUndefined s5)))
  = frames (trace s5).
Proof. vm_compute. now repeat split. Qed.

(** ** Further properties of the registry and the router *)

(** Re-pairing: an accepted connect on a second open connection takes over
    the registry entry of its device id, the other sockets are left alone,
    and a later [sendText] to that id writes one frame, on the newer
    connection. *)
Theorem repairing_replaces_registry_entry ws w msg s device :
  sockets s !! ws = Some w ->
  readyState w = OPEN ->
  accepted (token s) msg = true ->
  resolve_device msg (remoteInfo w) = Normal device ->
  let s' := dispatch ws (remoteInfo w) msg s in
  Map.get device (clients s') = Some ws /\
  (forall other, other <> ws -> sockets s' !! other = sockets s !! other) /\
  (forall text, exists s'' frame,
     sendText device text VUndefined s' = (Normal true, s'') /\
     frames (trace s'') = frames (trace s') ++ [(ws, frame)]).
Proof.
  intros Hw Hopen Hacc Hd s'.
  destruct (dispatch_accepted ws (remoteInfo w) msg s device Hacc Hd) as (Hso & Hcl & _).
  fold s' in Hso, Hcl.
  assert (Hreg : Map.get device (clients s') = Some ws)
    by (rewrite Hcl; apply Map_get_set_eq).
  split; [exact Hreg|]. split.
  - intros other Hne. rewrite Hso. now apply list_lookup_alter_ne.
  - intros text.
    destruct (sendText_registered device text VUndefined ws s' Hreg ltac:(discriminate))
      as (s'' & Hrun & Htr & _).
    assert (Hrs : readyState_of s' ws = OPEN).
    { unfold readyState_of. now rewrite Hso, list_lookup_alter_eq, Hw. }
    rewrite Hrs in Htr. cbn in Htr.
    exists s''. eexists. split; [exact Hrun|].
    rewrite Htr, !frames_app, frames_debug_line. reflexivity.
Qed.

(** The close handler on a socket that carries a device id: the entry is
    deleted first; the log line and the notification follow when the id
    has a string form, and the template literal throws when it has none. *)
Lemma _handleDisconnect_tagged ws w s :
  sockets s !! ws = Some w ->
  truthy (deviceId w) = true ->
  let s0 := with_clients (Map.delete (deviceId w) (clients s))
              (set_readyState ws CLOSED s) in
  _handleDisconnect ws (set_readyState ws CLOSED s) =
    match to_String (deviceId w) with
    | Normal shown =>
        (Normal tt,
         perform (Emit (deviceDisconnected (deviceId w)))
           (perform (Console ("[RabbitGateway] Device disconnected: " +:+ shown)) s0))
    | Throw e => (Throw e, s0)
    end.
Proof.
  intros Hw Htag. unfold _handleDisconnect. rewrite bind_gets.
  assert (Ht : deviceId_of (set_readyState ws CLOSED s) ws = deviceId w).
  { unfold deviceId_of, set_readyState; cbn. now rewrite list_lookup_alter_eq, Hw. }
  rewrite Ht, Htag, bind_modify.
  destruct (to_String (deviceId w)) as [shown|e];
    [now rewrite bind_lift_Normal, bind_log|now rewrite bind_lift_Throw].
Qed.

(** Transport close of a paired connection: the entry under its device id
    is removed from the registry and no frame is written.  When the id has
    a string form the removal is logged and deviceDisconnected{id} is
    raised; when it has none the log line's template literal throws out of
    the listener and nothing is raised. *)
Theorem close_of_paired_socket ws w s :
  sockets s !! ws = Some w ->
  truthy (deviceId w) = true ->
  let s' := on_close ws s in
  Map.get (deviceId w) (clients s') = None /\
  readyState_of s' ws = CLOSED /\
  deviceId_of s' ws = deviceId w /\
  frames (trace s') = frames (trace s) /\
  (forall shown,
     to_String (deviceId w) = Normal shown ->
     fst (_handleDisconnect ws (set_readyState ws CLOSED s)) = Normal tt /\
     trace s' =
       trace s
       ++ [Console ("[RabbitGateway] Device disconnected: " +:+ shown);
           Emit (deviceDisconnected (deviceId w))]) /\
  (forall e,
     to_String (deviceId w) = Throw e ->
     fst (_handleDisconnect ws (set_readyState ws CLOSED s)) = Throw e /\
     trace s' = trace s).
Proof.
  intros Hw Htag s'. subst s'. unfold on_close.
  rewrite (_handleDisconnect_tagged ws w s Hw Htag).
  destruct (to_String (deviceId w)) as [shown|e]; cbn -[alter].
  - rewrite Map_get_delete_eq. unfold readyState_of, deviceId_of; cbn -[alter].
    rewrite list_lookup_alter_eq, Hw. cbn.
    rewrite <- app_assoc, frames_app, app_nil_r.
    do 4 (split; [reflexivity|]). split.
    + intros shown' [= <-]. now split.
    + intros e H. discriminate H.
  - rewrite Map_get_delete_eq. unfold readyState_of, deviceId_of; cbn -[alter].
    rewrite list_lookup_alter_eq, Hw. cbn.
    do 4 (split; [reflexivity|]). split.
    + intros shown H. discriminate H.
    + intros e' [= <-]. now split.
Qed.

(** chat.send on a paired, open connection: the message notification
    carries the connection's device id and the request's message,
    sessionKey and idempotencyKey, and is followed by the acknowledgement
    [{type:'res', id, ok:true}]. *)
Theorem chat_send_on_paired_socket ws w msg remote s :
  sockets s !! ws = Some w ->
  readyState w = OPEN ->
  truthy (deviceId w) = true ->
  opt_member msg "method" = VStr "chat.send" ->
  nullish (opt_member msg "params") = false ->
  exists s',
    _handleMessage ws msg remote s = (Normal tt, s') /\
    wire (trace s') =
      wire (trace s)
      ++ [Emit (message (deviceId w)
                  (opt_member (opt_member msg "params") "message")
                  (opt_member (opt_member msg "params") "sessionKey")
                  (opt_member (opt_member msg "params") "idempotencyKey"));
          Send ws (JSON_stringify
            (VObj literal
               [("type", VStr "res");
                ("id", opt_member msg "id");
                ("ok", VBool true)]))] /\
    same_gateway s s'.
Proof.
  intros Hw Hopen Htag Hm Hp.
  destruct (handle_chat_send ws w msg remote s Hw Hm Hp) as (s' & Hrun & Htr & Hsame).
  rewrite Htag, Hopen in Htr. now exists s'.
Qed.

(** chat.send without params: reading [msg.params.message] throws, the
    listener logs the TypeError as a parse error, and neither a notification
    nor an acknowledgement follows. *)
Theorem chat_send_without_params ws remote msg s :
  opt_member msg "method" = VStr "chat.send" ->
  nullish (opt_member msg "params") = true ->
  let s' := dispatch ws remote msg s in
  trace s' =
    trace s
    ++ (if debug s then [Console ("IN < " +:+ JSON_stringify msg)] else [])
    ++ [Console ("[RabbitGateway] Error parsing message from " +:+ remote +:+ ": "
                 +:+ TypeError_message (opt_member msg "params") "message")] /\
  silently_ignored s s' /\
  same_gateway s s'.
Proof.
  intros Hm Hp s'. subst s'. unfold dispatch.
  rewrite (handle_chat_send_without_params ws msg remote s Hm Hp).
  unfold silently_ignored. cbn.
  rewrite <- app_assoc, !wire_app, wire_debug_line.
  split; [reflexivity|]. split.
  - cbn. apply app_nil_r.
  - unfold same_gateway; cbn. now repeat split.
Qed.

(** ** What every handler keeps *)

Lemma advances_refl s : advances s s.
Proof.
  repeat split. exists []. rewrite app_nil_r.
  split; [reflexivity|]. split; [intros ws f []|intros _; constructor].
Qed.

Lemma readyState_of_fmap s s' ws :
  readyState <$> sockets s' = readyState <$> sockets s ->
  readyState_of s' ws = readyState_of s ws.
Proof.
  intros H. unfold readyState_of.
  assert (E : readyState <$> (sockets s' !! ws) = readyState <$> (sockets s !! ws))
    by (now rewrite <- !(list_lookup_fmap readyState), H).
  destruct (sockets s' !! ws), (sockets s !! ws); cbn in E; congruence.
Qed.

Lemma advances_trans s1 s2 s3 : advances s1 s2 -> advances s2 s3 -> advances s1 s3.
Proof.
  intros (Hp & Hd & Ht & Hr & Hi & t & Htr & Hopen & Hlog)
         (Hp' & Hd' & Ht' & Hr' & Hi' & t' & Htr' & Hopen' & Hlog').
  repeat split; try congruence.
  exists (t ++ t'). split; [now rewrite Htr', Htr, app_assoc|]. split.
  - intros ws f Hin. apply in_app_or in Hin as [Hin|Hin]; [exact (Hopen ws f Hin)|].
    rewrite <- (readyState_of_fmap s1 s2 ws Hr). exact (Hopen' ws f Hin).
  - intros Hoff. apply Forall_app. split; [now apply Hlog|].
    apply Hlog'. congruence.
Qed.

Lemma keeps_ret {A} R (a : A) : (forall s, R s s) -> keeps R (ret a).
Proof. intros H s. apply H. Qed.

Lemma keeps_lift {A} R (c : completion A) : (forall s, R s s) -> keeps R (lift c).
Proof. intros H s. apply H. Qed.

Lemma keeps_gets {A} R (g : State -> A) : (forall s, R s s) -> keeps R (gets g).
Proof. intros H s. apply H. Qed.

Lemma keeps_bind {A B} R (m : M A) (k : A -> M B) :
  (forall s1 s2 s3, R s1 s2 -> R s2 s3 -> R s1 s3) ->
  keeps R m -> (forall a, keeps R (k a)) -> keeps R (bind m k).
Proof.
  intros Htrans Hm Hk s. unfold bind. specialize (Hm s).
  destruct (m s) as [[a|e] s1]; cbn in *; [|exact Hm].
  eapply Htrans; [exact Hm|apply Hk].
Qed.

Lemma prefix_append p t : String.prefix p (p +:+ t) = true.
Proof.
  induction p as [|c p IH]; simpl; [now destruct t|].
  destruct (ascii_dec c c); [exact IH|congruence].
Qed.

Lemma advances_perform_console s line :
  String.prefix "[RabbitGateway] " line = true -> advances s (perform (Console line) s).
Proof.
  intros H. repeat split. exists [Console line]. split; [reflexivity|]. split.
  - intros ws f [E|[]]. discriminate E.
  - intros _. now repeat constructor.
Qed.

Lemma advances_perform_emit s n : advances s (perform (Emit n) s).
Proof.
  repeat split. exists [Emit n]. split; [reflexivity|]. split.
  - intros ws f [E|[]]. discriminate E.
  - intros _. now repeat constructor.
Qed.

(** A dump is written only when [debug] is on. *)
Lemma advances_debug_line s line : advances s (perform_if (debug s) (Console line) s).
Proof.
  repeat split. exists (if debug s then [Console line] else []).
  split; [reflexivity|]. split.
  - intros ws f Hin. destruct (debug s); [destruct Hin as [E|[]]; discriminate E|destruct Hin].
  - intros ->. constructor.
Qed.

Lemma advances_quiet s s' :
  port s' = port s -> debug s' = debug s -> token s' = token s ->
  readyState <$> sockets s' = readyState <$> sockets s ->
  remoteInfo <$> sockets s' = remoteInfo <$> sockets s ->
  trace s' = trace s ->
  advances s s'.
Proof.
  intros ? ? ? ? ? Htr. repeat split; try assumption.
  exists []. rewrite app_nil_r. split; [exact Htr|].
  split; [intros ? ? []|intros _; constructor].
Qed.

Lemma keeps_advances_log line : keeps advances (log line).
Proof. intros s. apply advances_perform_console, prefix_append. Qed.

Lemma keeps_advances_emit n : keeps advances (emit n).
Proof. intros s. apply advances_perform_emit. Qed.

Lemma keeps_advances_new_uuid : keeps advances new_uuid.
Proof. intros s. now apply advances_quiet. Qed.

Lemma keeps_advances_now : keeps advances now.
Proof. intros s. now apply advances_quiet. Qed.

Lemma keeps_advances_clients (g : State -> Map.t) :
  keeps advances (modify (fun s => with_clients (g s) s)).
Proof. intros s. now apply advances_quiet. Qed.

Lemma keeps_advances_listening b : keeps advances (modify (with_listening b)).
Proof. intros s. now apply advances_quiet. Qed.

Lemma fmap_alter_same {A B} (f : A -> B) (g : A -> A) i (l : list A) :
  (forall x, f (g x) = f x) -> f <$> alter g i l = f <$> l.
Proof.
  intros H. revert i. induction l as [|x l IH]; intros [|i]; cbn; [easy..| |].
  - now rewrite H.
  - f_equal. apply IH.
Qed.

Lemma keeps_advances_tag ws id : keeps advances (modify (tag_socket ws id)).
Proof.
  intros s. apply advances_quiet; try reflexivity;
    cbn -[alter]; now apply fmap_alter_same.
Qed.

Lemma keeps_advances_sendJson ws data : keeps advances (_sendJson ws data).
Proof.
  intros s. destruct (decide (readyState_of s ws = OPEN)) as [Ho|Ho].
  - rewrite _sendJson_open by exact Ho. rewrite perform_if_spec. cbn.
    repeat split.
    exists ((if debug s then [Console ("OUT > " +:+ JSON_stringify data)] else [])
            ++ [Send ws (JSON_stringify data)]).
    split; [now rewrite app_assoc|]. split.
    + intros ws' f Hin. apply in_app_or in Hin as [Hin|[E|[]]].
      * destruct (debug s); [destruct Hin as [E|[]]; discriminate E|destruct Hin].
      * now injection E as <- _.
    + intros ->. now repeat constructor.
  - rewrite _sendJson_not_open by exact Ho. apply advances_refl.
Qed.

Ltac keeps_advances :=
  repeat first
    [ apply keeps_advances_sendJson
    | apply keeps_advances_log
    | apply keeps_advances_emit
    | apply keeps_advances_new_uuid
    | apply keeps_advances_now
    | apply keeps_advances_clients
    | apply keeps_advances_listening
    | apply keeps_advances_tag
    | apply keeps_ret; exact advances_refl
    | apply keeps_lift; exact advances_refl
    | apply keeps_gets; exact advances_refl
    | match goal with |- keeps _ (if ?b then _ else _) => destruct b end
    | match goal with |- keeps _ (match ?x with _ => _ end) => destruct x end
    | apply keeps_bind; [exact advances_trans| |intros ?] ].

Lemma _handleMessage_advances ws msg remote : keeps advances (_handleMessage ws msg remote).
Proof.
  intros s. unfold _handleMessage. rewrite bind_gets, bind_debug_line.
  eapply advances_trans;
    [apply (advances_debug_line s ("IN < " +:+ JSON_stringify msg))|].
  generalize (perform_if (debug s) (Console ("IN < " +:+ JSON_stringify msg)) s).
  match goal with |- forall x, advances x (snd (@?m x)) => change (keeps advances m) end.
  keeps_advances.
Qed.

Lemma report_advances remote e : keeps advances (report remote e).
Proof. apply keeps_advances_log. Qed.

Lemma dispatch_advances ws remote msg s : advances s (dispatch ws remote msg s).
Proof.
  unfold dispatch. pose proof (_handleMessage_advances ws msg remote s) as H.
  destruct (_handleMessage ws msg remote s) as [[u|e] s1]; cbn in H; [exact H|].
  eapply advances_trans; [exact H|]. apply report_advances.
Qed.

Lemma handle_advances ws remote msg s : advances s (handle ws remote msg s).
Proof.
  unfold handle. pose proof (_handleMessage_advances ws msg remote s) as H.
  destruct (_handleMessage ws msg remote s) as [[u|e] s1]; cbn in H; [exact H|].
  eapply advances_trans; [exact H|]. now apply advances_quiet.
Qed.

Lemma on_message_advances ws data s : advances s (on_message ws data s).
Proof.
  unfold on_message, parse. destruct (sockets s !! ws) as [w|]; [|apply advances_refl].
  apply (advances_trans _ (with_parse_calls (S (parse_calls s)) s));
    [now apply advances_quiet|].
  destruct (JSON_parse (parse_calls s) data) as [msg|e].
  - apply handle_advances.
  - apply report_advances.
Qed.

Lemma run_microtasks_advances s : advances s (run_microtasks s).
Proof.
  unfold run_microtasks.
  apply (advances_trans _ (with_pending [] s)); [now apply advances_quiet|].
  generalize (with_pending [] s). induction (pending s) as [|r l IH]; intros s0; cbn.
  - apply advances_refl.
  - eapply advances_trans; [apply (report_advances (fst r) (snd r) s0)|apply IH].
Qed.

Lemma sendText_advances device text options : keeps advances (sendText device text options).
Proof. unfold sendText. keeps_advances. Qed.

Lemma _handleDisconnect_advances ws : keeps advances (_handleDisconnect ws).
Proof. unfold _handleDisconnect. keeps_advances. Qed.

Lemma _handleConnection_advances ws remoteAddress remotePort :
  keeps advances (_handleConnection ws remoteAddress remotePort).
Proof. unfold _handleConnection. keeps_advances. Qed.

Lemma keeps_same_gateway_sendJson ws data : keeps same_gateway (_sendJson ws data).
Proof.
  intros s. destruct (_sendJson_cases ws data s) as [t ->]. now repeat split.
Qed.

Lemma keeps_same_gateway_log line : keeps same_gateway (log line).
Proof. intros s. now repeat split. Qed.

Lemma keeps_same_gateway_emit n : keeps same_gateway (emit n).
Proof. intros s. now repeat split. Qed.

Lemma keeps_same_gateway_new_uuid : keeps same_gateway new_uuid.
Proof. intros s. now repeat split. Qed.

Lemma keeps_same_gateway_now : keeps same_gateway now.
Proof. intros s. now repeat split. Qed.

Ltac keeps_same_gateway :=
  repeat first
    [ apply keeps_same_gateway_sendJson
    | apply keeps_same_gateway_log
    | apply keeps_same_gateway_emit
    | apply keeps_same_gateway_new_uuid
    | apply keeps_same_gateway_now
    | apply keeps_ret; exact same_gateway_refl
    | apply keeps_lift; exact same_gateway_refl
    | apply keeps_gets; exact same_gateway_refl
    | match goal with |- keeps _ (if ?b then _ else _) => destruct b end
    | match goal with |- keeps _ (match ?x with _ => _ end) => destruct x end
    | apply keeps_bind; [exact same_gateway_trans| |intros ?] ].

(** [sendText] never touches the gateway object, the registry or a socket,
    whatever it is given and however it ends. *)
Lemma sendText_same_gateway device text options :
  keeps same_gateway (sendText device text options).
Proof. unfold sendText. keeps_same_gateway. Qed.

Lemma _handleConnection_same_gateway ws remoteAddress remotePort :
  keeps same_gateway (_handleConnection ws remoteAddress remotePort).
Proof. unfold _handleConnection. keeps_same_gateway. Qed.

Lemma on_server_error_same_gateway err listened :
  keeps same_gateway (on_server_error err listened).
Proof.
  unfold on_server_error.
  apply keeps_bind; [exact same_gateway_trans|intros s; now repeat split|intros ?].
  keeps_same_gateway.
Qed.

Lemma run_microtasks_same_gateway s : same_gateway s (run_microtasks s).
Proof.
  unfold run_microtasks.
  apply (same_gateway_trans _ (with_pending [] s)); [now repeat split|].
  generalize (with_pending [] s). induction (pending s) as [|r l IH]; intros s0; cbn.
  - apply same_gateway_refl.
  - eapply same_gateway_trans; [|apply IH]. now repeat split.
Qed.

(** In [start], only [this.wss] is assigned. *)
Lemma start_gateway s :
  port (snd (start s)) = port s /\ debug (snd (start s)) = debug s /\
  token (snd (start s)) = token s /\ clients (snd (start s)) = clients s /\
  sockets (snd (start s)) = sockets s.
Proof.
  unfold start. rewrite bind_gets.
  destruct (WebSocket_Server (port s)) as [[]|e];
    [rewrite bind_lift_Normal|rewrite bind_lift_Throw]; now repeat split.
Qed.

(** ** The event loop, one event at a time *)

Ltac as_keeps s1 :=
  generalize s1;
  match goal with
  | |- forall x, advances x (snd (@?m x)) => change (keeps advances m)
  end.

(** Every event first lets the library adjust the state without a trace, or
    the server's error listener write its console line ([s1]), and then
    runs handlers that only advance it. *)
Lemma step_advances e s :
  exists s1,
    (trace s1 = trace s \/
     exists err listened,
       e = server_error err listened /\ trace s1 = trace s ++ [error_line err]) /\
    port s1 = port s /\ debug s1 = debug s /\
    token s1 = token s /\ advances s1 (step e s).
Proof.
  destruct e as [addr prt|ws data|ws|ws|device text options| | |err listened];
    cbn [step].
  - unfold on_connection. rewrite bind_gets, bind_modify.
    set (s1 := with_sockets _ s).
    exists s1. split; [now left|]. do 3 (split; [reflexivity|]). clearbody s1.
    as_keeps s1. keeps_advances.
  - exists s. split; [now left|]. do 3 (split; [reflexivity|]).
    apply on_message_advances.
  - exists (set_readyState ws CLOSING s). split; [now left|].
    do 3 (split; [reflexivity|]). apply advances_refl.
  - exists (set_readyState ws CLOSED s). split; [now left|].
    do 3 (split; [reflexivity|]). apply _handleDisconnect_advances.
  - exists s. split; [now left|]. do 3 (split; [reflexivity|]).
    apply sendText_advances.
  - exists s. split; [now left|]. do 3 (split; [reflexivity|]).
    as_keeps s. unfold start. keeps_advances.
  - exists s. split; [now left|]. do 3 (split; [reflexivity|]).
    apply run_microtasks_advances.
  - unfold on_server_error, console_log. rewrite bind_modify.
    set (s1 := perform _ s).
    exists s1. split; [right; now exists err, listened|].
    do 3 (split; [reflexivity|]). clearbody s1. as_keeps s1. keeps_advances.
Qed.

Lemma error_line_no_frame err ws f : ~ In (Send ws f) [error_line err].
Proof. intros [E|[]]. discriminate E. Qed.

(** No handler writes on a transport that is not open: the frames an event
    adds to the trace all go to sockets that are open when it has been
    handled. *)
Theorem frames_go_to_open_sockets e s :
  exists t,
    trace (step e s) = trace s ++ t /\
    forall ws f, In (Send ws f) t -> readyState_of (step e s) ws = OPEN.
Proof.
  destruct (step_advances e s)
    as (s1 & Htr & _ & _ & _ & _ & _ & _ & Hr & _ & t & Ht & Hopen & _).
  destruct Htr as [Htr|(err & listened & _ & Htr)].
  - exists t. split; [now rewrite Ht, Htr|].
    intros ws f Hin. rewrite (readyState_of_fmap s1 (step e s) ws Hr).
    exact (Hopen ws f Hin).
  - exists ([error_line err] ++ t). split; [now rewrite Ht, Htr, <- app_assoc|].
    intros ws f Hin. apply in_app_or in Hin as [Hin|Hin];
      [now apply error_line_no_frame in Hin|].
    rewrite (readyState_of_fmap s1 (step e s) ws Hr).
    exact (Hopen ws f Hin).
Qed.

Lemma step_identity e s :
  token (step e s) = token s /\ port (step e s) = port s /\ debug (step e s) = debug s.
Proof.
  destruct (step_advances e s) as (s1 & _ & Hp & Hd & Ht & Hp' & Hd' & Ht' & _).
  repeat split; congruence.
Qed.

Lemma run_identity events s :
  token (run events s) = token s /\
  port (run events s) = port s /\
  debug (run events s) = debug s.
Proof.
  revert s. induction events as [|e events IH]; intros s; cbn; [now repeat split|].
  destruct (IH (step e s)) as (Ht & Hp & Hd).
  destruct (step_identity e s) as (Ht' & Hp' & Hd').
  fold (run events (step e s)). repeat split; congruence.
Qed.

(** The token, the port and the debug flag a gateway was created with stay
    the same through every sequence of events. *)
Theorem gateway_identity_is_fixed events s :
  token (run events s) = token s /\
  port (run events s) = port s /\
  debug (run events s) = debug s.
Proof. apply run_identity. Qed.

(** With debug off, every console line the gateway writes comes from
    [log], except the line the server's error listener writes with
    [console.error]; in a sequence of events without a server error all of
    them come from [log].  No frame is dumped, received or sent. *)
Theorem without_debug_console_comes_from_log events s :
  debug s = false ->
  exists t,
    trace (run events s) = trace s ++ t /\
    Forall (fun e => from_log e \/ exists err, e = error_line err) t /\
    (existsb is_server_error events = false -> Forall from_log t).
Proof.
  revert s. induction events as [|e events IH]; intros s Hoff; cbn.
  - exists []. rewrite app_nil_r. now repeat split.
  - destruct (step_advances e s)
      as (s1 & Htr & _ & Hd & _ & _ & Hd' & _ & _ & _ & t & Ht & _ & Hlog).
    destruct (IH (step e s)) as (t' & Ht' & Hall' & Hlog'); [congruence|].
    fold (run events (step e s)).
    assert (Ht1 : Forall from_log t) by (apply Hlog; congruence).
    destruct Htr as [Htr|(err & listened & -> & Htr)].
    + exists (t ++ t'). split; [now rewrite Ht', Ht, Htr, app_assoc|]. split.
      * apply Forall_app. split; [|exact Hall'].
        eapply Forall_impl; [exact Ht1|]. intros x Hx. now left.
      * intros Hno. apply orb_false_iff in Hno as [_ Hno].
        apply Forall_app. split; [exact Ht1|now apply Hlog'].
    + exists ([error_line err] ++ t ++ t').
      split; [now rewrite Ht', Ht, Htr, <- !app_assoc|]. split.
      * apply Forall_app. split; [constructor; [right; now exists err|constructor]|].
        apply Forall_app. split; [|exact Hall'].
        eapply Forall_impl; [exact Ht1|]. intros x Hx. now left.
      * intros Hno. discriminate Hno.
Qed.

(** ** Who gets registered *)

Lemma registry_of_paired_kept s s' :
  registry_of_paired s ->
  (forall d x, Map.get d (clients s') = Some x -> Map.get d (clients s) = Some x) ->
  (forall x w, sockets s !! x = Some w ->
               truthy (deviceId w) = true ->
               exists w', sockets s' !! x = Some w' /\ truthy (deviceId w') = true) ->
  registry_of_paired s'.
Proof.
  intros Hinv Hcl Hso d x Hget.
  destruct (Hinv d x (Hcl d x Hget)) as (w & Hw & Ht). eauto.
Qed.

Lemma registry_of_paired_same s s' :
  clients s' = clients s -> sockets s' = sockets s ->
  registry_of_paired s -> registry_of_paired s'.
Proof. intros Hcl Hso Hinv d x. rewrite Hcl, Hso. apply Hinv. Qed.

Lemma lookup_alter_tagged (g : WebSocket -> WebSocket) ws (l : list WebSocket) x w :
  (forall w0, truthy (deviceId w0) = true -> truthy (deviceId (g w0)) = true) ->
  l !! x = Some w -> truthy (deviceId w) = true ->
  exists w', alter g ws l !! x = Some w' /\ truthy (deviceId w') = true.
Proof.
  intros Hg Hw Ht. destruct (decide (ws = x)) as [->|Hne].
  - rewrite list_lookup_alter_eq, Hw. cbn. eauto.
  - rewrite list_lookup_alter_ne by exact Hne. eauto.
Qed.

Lemma on_connection_gateway addr prt s :
  let s' := snd (on_connection addr prt s) in
  clients s' = clients s /\
  sockets s' = sockets s ++ [mkWebSocket OPEN VUndefined (remote_of addr prt)].
Proof.
  unfold on_connection. rewrite bind_gets, bind_modify.
  set (s1 := with_sockets _ s).
  assert (Hsame : same_gateway s1
            (snd ((let* _ := _handleConnection (length (sockets s)) addr prt
                   in ret (length (sockets s))) s1))).
  { generalize s1.
    match goal with
    | |- forall x, same_gateway x (snd (@?m x)) => change (keeps same_gateway m)
    end. keeps_same_gateway. }
  destruct Hsame as (_ & _ & _ & _ & Hcl & Hso). cbn zeta. now rewrite Hcl, Hso.
Qed.

(** The close listener deletes at most the entry of the socket's tag and
    leaves every tag as it is. *)
Lemma on_close_gateway ws s :
  (clients (on_close ws s) = clients s \/
   clients (on_close ws s) = Map.delete (deviceId_of s ws) (clients s)) /\
  sockets (on_close ws s) = sockets (set_readyState ws CLOSED s).
Proof.
  unfold on_close, _handleDisconnect. rewrite bind_gets.
  assert (Ht : deviceId_of (set_readyState ws CLOSED s) ws = deviceId_of s ws).
  { unfold deviceId_of, set_readyState; cbn -[alter]. rewrite list_lookup_alter_eq.
    now destruct (sockets s !! ws). }
  rewrite Ht. destruct (truthy (deviceId_of s ws)); [|now split; [left|]].
  rewrite bind_modify.
  destruct (to_String (deviceId_of s ws)) as [shown|e];
    [rewrite bind_lift_Normal, bind_log|rewrite bind_lift_Throw];
    (split; [now right|reflexivity]).
Qed.

Lemma step_registry_of_paired e s :
  registry_of_paired s -> registry_of_paired (step e s).
Proof.
  intros Hinv.
  destruct e as [addr prt|ws data|ws|ws|device text options| | |err listened];
    cbn [step].
  - destruct (on_connection_gateway addr prt s) as (Hcl & Hso).
    apply (registry_of_paired_kept s); [exact Hinv| |].
    + intros d x. now rewrite Hcl.
    + intros x w Hw Ht. exists w. split; [|exact Ht].
      rewrite Hso. now apply lookup_app_l_Some.
  - unfold on_message, parse. destruct (sockets s !! ws) as [w|] eqn:Hw; [|exact Hinv].
    destruct (JSON_parse (parse_calls s) data) as [msg|err]; [|exact Hinv].
    set (s1 := with_parse_calls (S (parse_calls s)) s).
    destruct (accepted (token s) msg) eqn:Hacc.
    + pose proof (is_connect_defined _ (accepted_is_connect _ _ Hacc)) as Hnn.
      destruct (resolve_device_total msg (remoteInfo w) Hnn) as (device & Hd & Htd).
      destruct (handle_accepted ws (remoteInfo w) msg s1 device Hacc Hd)
        as (Hso & Hcl & _).
      intros d x Hget. rewrite Hcl in Hget. rewrite Hso.
      change (sockets s1) with (sockets s). change (clients s1) with (clients s) in Hget.
      apply Map_get_set_Some in Hget as [->|Hget].
      * rewrite list_lookup_alter_eq, Hw. cbn. eauto.
      * destruct (Hinv d x Hget) as (w0 & Hw0 & Ht0).
        now apply (lookup_alter_tagged _ ws (sockets s) x w0).
    + destruct (handle_not_accepted ws (remoteInfo w) msg s1 Hacc)
        as (_ & _ & _ & _ & Hcl & Hso).
      now apply (registry_of_paired_same s).
  - intros d x Hget. destruct (Hinv d x Hget) as (w0 & Hw0 & Ht0).
    now apply (lookup_alter_tagged _ ws (sockets s) x w0).
  - destruct (on_close_gateway ws s) as (Hcl & Hso).
    intros d x Hget. rewrite Hso.
    assert (Hget' : Map.get d (clients s) = Some x).
    { destruct Hcl as [Hcl|Hcl]; rewrite Hcl in Hget;
        [exact Hget|now apply Map_get_delete_Some in Hget]. }
    destruct (Hinv d x Hget') as (w0 & Hw0 & Ht0).
    now apply (lookup_alter_tagged _ ws (sockets s) x w0).
  - destruct (sendText_same_gateway device text options s)
      as (_ & _ & _ & _ & Hcl & Hso).
    now apply (registry_of_paired_same s).
  - destruct (start_gateway s) as (_ & _ & _ & Hcl & Hso).
    now apply (registry_of_paired_same s).
  - destruct (run_microtasks_same_gateway s) as (_ & _ & _ & _ & Hcl & Hso).
    now apply (registry_of_paired_same s).
  - destruct (on_server_error_same_gateway err listened s)
      as (_ & _ & _ & _ & Hcl & Hso).
    now apply (registry_of_paired_same s).
Qed.

Lemma run_registry_of_paired events s :
  registry_of_paired s -> registry_of_paired (run events s).
Proof.
  revert s. induction events as [|e events IH]; intros s Hinv; cbn; [exact Hinv|].
  apply IH. now apply step_registry_of_paired.
Qed.

(** The registry only ever holds connections that were tagged by the
    handshake: from the constructor on, after every sequence of events,
    each registry entry leads to an existing socket with a device id. *)
Theorem registry_holds_paired_sockets options events :
  registry_of_paired (run events (constructor options)).
Proof.
  apply run_registry_of_paired. intros d x. discriminate.
Qed.

Lemma deviceId_of_same s s' x :
  sockets s' = sockets s -> deviceId_of s' x = deviceId_of s x.
Proof. intros H. unfold deviceId_of. now rewrite H. Qed.

Lemma deviceId_of_set_readyState ws r s x :
  deviceId_of (set_readyState ws r s) x = deviceId_of s x.
Proof.
  unfold deviceId_of, set_readyState. cbn -[alter].
  destruct (decide (ws = x)) as [->|Hne].
  - rewrite list_lookup_alter_eq. now destruct (sockets s !! x).
  - now rewrite list_lookup_alter_ne.
Qed.

Lemma step_tag e s x :
  truthy (deviceId_of (step e s) x) = true ->
  truthy (deviceId_of s x) = true \/
  exists data msg,
    e = receives x data /\
    JSON_parse (parse_calls s) data = Normal msg /\
    accepted (token s) msg = true.
Proof.
  destruct e as [addr prt|ws data|ws|ws|device text options| | |err listened];
    cbn [step].
  - destruct (on_connection_gateway addr prt s) as (_ & Hso).
    unfold deviceId_of. rewrite Hso. rewrite lookup_app.
    destruct (sockets s !! x); [now left|].
    destruct (x - length (sockets s))%nat as [|[|k]]; cbn; discriminate.
  - unfold on_message, parse. destruct (sockets s !! ws) as [w|] eqn:Hw; [|now left].
    destruct (JSON_parse (parse_calls s) data) as [msg|err] eqn:Hparse; [|now left].
    set (s1 := with_parse_calls (S (parse_calls s)) s).
    destruct (accepted (token s) msg) eqn:Hacc.
    + destruct (decide (ws = x)) as [->|Hne].
      * intros _. right. now exists data, msg.
      * pose proof (is_connect_defined _ (accepted_is_connect _ _ Hacc)) as Hnn.
        destruct (resolve_device_total msg (remoteInfo w) Hnn) as (device & Hd & _).
        destruct (handle_accepted ws (remoteInfo w) msg s1 device Hacc Hd)
          as (Hso & _).
        unfold deviceId_of. rewrite Hso, list_lookup_alter_ne by exact Hne.
        now left.
    + destruct (handle_not_accepted ws (remoteInfo w) msg s1 Hacc)
        as (_ & _ & _ & _ & _ & Hso).
      rewrite (deviceId_of_same s1 _ x Hso). now left.
  - rewrite deviceId_of_set_readyState. now left.
  - destruct (on_close_gateway ws s) as (_ & Hso).
    rewrite (deviceId_of_same _ _ x Hso), deviceId_of_set_readyState. now left.
  - destruct (sendText_same_gateway device text options s)
      as (_ & _ & _ & _ & _ & Hso).
    rewrite (deviceId_of_same _ _ x Hso). now left.
  - destruct (start_gateway s) as (_ & _ & _ & _ & Hso).
    rewrite (deviceId_of_same _ _ x Hso). now left.
  - destruct (run_microtasks_same_gateway s) as (_ & _ & _ & _ & _ & Hso).
    rewrite (deviceId_of_same _ _ x Hso). now left.
  - destruct (on_server_error_same_gateway err listened s)
      as (_ & _ & _ & _ & _ & Hso).
    rewrite (deviceId_of_same _ _ x Hso). now left.
Qed.

Lemma run_tag events s x :
  truthy (deviceId_of (run events s) x) = true ->
  truthy (deviceId_of s x) = true \/
  exists data call msg,
    In (receives x data) events /\
    JSON_parse call data = Normal msg /\
    accepted (token s) msg = true.
Proof.
  revert s. induction events as [|e events IH]; intros s H; cbn in *; [now left|].
  destruct (IH (step e s) H) as [Hstep|(data & call & msg & Hin & Hp & Hacc)].
  - destruct (step_tag e s x Hstep) as [Hs|(data & msg & -> & Hp & Hacc)];
      [now left|].
    right. exists data, (parse_calls s), msg. split; [now left|now split].
  - right. exists data, call, msg. split; [now right|]. split; [exact Hp|].
    destruct (step_identity e s) as (Ht & _). now rewrite <- Ht.
Qed.

(** A connection gets its device id from the handshake only: a socket that
    carries a device id after a sequence of events either carried one
    before, or received a frame that [JSON.parse] turned into a connect
    request presenting the gateway token. *)
Theorem tagged_only_by_accepted_connect events s x :
  truthy (deviceId_of (run events s) x) = true ->
  truthy (deviceId_of s x) = true \/
  exists data call msg,
    In (receives x data) events /\
    JSON_parse call data = Normal msg /\
    accepted (token s) msg = true.
Proof. apply run_tag. Qed.

(** Only authenticated peers can be reached: whatever happens to a gateway
    after it is constructed, a registry entry (and so any frame [sendText]
    writes) leads to a socket that received a connect request presenting
    the gateway token. *)
Theorem registered_sockets_presented_the_token options events device x :
  Map.get device (clients (run events (constructor options))) = Some x ->
  exists data call msg,
    In (receives x data) events /\
    JSON_parse call data = Normal msg /\
    accepted (token (constructor options)) msg = true.
Proof.
  intros Hget.
  assert (H0 : registry_of_paired (constructor options)) by (intros d y; discriminate).
  destruct (run_registry_of_paired events (constructor options) H0 device x Hget)
    as (w & Hw & Ht).
  destruct (run_tag events (constructor options) x) as [H1|H]; [| |exact H].
  - unfold deviceId_of. now rewrite Hw.
  - discriminate H1.
Qed.

(** ** Accepting a peer *)

(** A new connection is stored as an open, untagged socket and is sent
    exactly one frame, the connect.challenge event [{type:'event',
    event:'connect.challenge', payload:{nonce, ts}}] with a newly drawn
    uuid as nonce and the current time; the registry is not touched and
    nothing is raised to the application.  The socket's remote info is the
    remote address, a colon and the digits of the remote port. *)
Theorem connection_is_challenged remoteAddress remotePort s :
  exists s',
    on_connection remoteAddress remotePort s = (Normal (length (sockets s)), s') /\
    sockets s' =
      sockets s
      ++ [mkWebSocket OPEN VUndefined (remote_of remoteAddress remotePort)] /\
    wire (trace s') =
      wire (trace s)
      ++ [Send (length (sockets s))
            (JSON_stringify
               (VObj literal
                  [("type", VStr "event");
                   ("event", VStr "connect.challenge");
                   ("payload",
                     VObj literal
                       [("nonce", VStr (uuidv4 (uuid_calls s)));
                        ("ts", VNum (Date_now (clock_calls s)))])]))] /\
    clients s' = clients s /\
    uuid_calls s' = S (uuid_calls s) /\
    ((remotePort <= 65535)%N ->
     remote_of remoteAddress remotePort
     = remoteAddress +:+ ":" +:+ pretty (Z.of_N remotePort)).
Proof.
  unfold on_connection, _handleConnection.
  rewrite bind_gets, bind_modify, bind_assoc, bind_log, bind_assoc, bind_new_uuid.
  rewrite bind_assoc, bind_now.
  rewrite bind_sendJson_open.
  2:{ unfold readyState_of. cbn. now rewrite list_lookup_middle. }
  eexists; split; [reflexivity|]. cbn.
  rewrite <- !app_assoc, !wire_app, wire_debug_line. cbn.
  do 4 (split; [reflexivity|]).
  intros Hport. unfold remote_of, number_to_String.
  destruct (Z.leb_spec (Z.abs (Z.of_N remotePort)) 9007199254740991) as [_|Hbig];
    [reflexivity|].
  exfalso. rewrite Z.abs_eq in Hbig by apply N2Z.is_nonneg.
  apply N2Z.inj_le in Hport. change (Z.of_N 65535) with 65535 in Hport.
  apply (Z.lt_irrefl 9007199254740991).
  eapply Z.lt_le_trans; [exact Hbig|].
  eapply Z.le_trans; [exact Hport|]. discriminate.
Qed.

(** ** Where the token and the device id are read from *)

Lemma strict_eq_str_eq v lit : strict_eq_str v lit = true <-> v = VStr lit.
Proof.
  split; [|intros ->; apply strict_eq_str_refl].
  destruct v; simpl; try discriminate.
  intros H. apply String.eqb_eq in H. now subst.
Qed.

(** The token of a request is the first truthy value among
    [params.auth.token], [params.authToken], [auth.token] and [token]; the
    later places are read only when the earlier ones are missing or falsy.
    So a request that carries a wrong value in an earlier place is rejected
    even if a later place holds the gateway token. *)
Theorem token_is_read_from_the_first_truthy_place msg :
  nullish msg = false ->
  let c1 := opt_member (opt_member (opt_member msg "params") "auth") "token" in
  let c2 := opt_member (opt_member msg "params") "authToken" in
  let c3 := opt_member (opt_member msg "auth") "token" in
  let c4 := opt_member msg "token" in
  (truthy c1 = true -> _extractToken msg = Normal c1) /\
  (truthy c1 = false -> truthy c2 = true -> _extractToken msg = Normal c2) /\
  (truthy c1 = false -> truthy c2 = false -> truthy c3 = true ->
   _extractToken msg = Normal c3) /\
  (truthy c1 = false -> truthy c2 = false -> truthy c3 = false ->
   _extractToken msg = Normal c4) /\
  (forall tok, truthy c1 = true -> c1 <> VStr tok -> accepted tok msg = false).
Proof.
  intros Hnn c1 c2 c3 c4.
  assert (E : _extractToken msg =
              Normal (if truthy (if truthy (if truthy c1 then c1 else c2)
                                  then (if truthy c1 then c1 else c2) else c3)
                      then (if truthy (if truthy c1 then c1 else c2)
                            then (if truthy c1 then c1 else c2) else c3)
                      else c4)).
  { unfold _extractToken. rewrite !(member_defined msg) by exact Hnn.
    now rewrite !or_else_Normal. }
  repeat split.
  - intros H1. rewrite E. now rewrite !H1.
  - intros H1 H2. rewrite E, H1. cbn iota. now rewrite !H2.
  - intros H1 H2 H3. rewrite E, H1. cbn iota. rewrite H2. cbn iota. now rewrite !H3.
  - intros H1 H2 H3. rewrite E, H1. cbn iota. rewrite H2. cbn iota. now rewrite H3.
  - intros tok H1 Hne. unfold accepted. rewrite E, !H1.
    destruct (strict_eq_str c1 tok) eqn:Heq; [|apply andb_false_r].
    apply strict_eq_str_eq in Heq. contradiction.
Qed.

(** The device id of a request is the first truthy value among
    [params.device.id], [params.deviceId], [params.client.id] and
    [deviceId]; when none is truthy the id is made from the remote address,
    so a resolved device id is always truthy. *)
Theorem device_id_is_resolved msg remote :
  nullish msg = false ->
  let d1 := opt_member (opt_member (opt_member msg "params") "device") "id" in
  let d2 := opt_member (opt_member msg "params") "deviceId" in
  let d3 := opt_member (opt_member (opt_member msg "params") "client") "id" in
  let d4 := opt_member msg "deviceId" in
  (truthy d1 = true -> resolve_device msg remote = Normal d1) /\
  (truthy d1 = false -> truthy d2 = true -> resolve_device msg remote = Normal d2) /\
  (truthy d1 = false -> truthy d2 = false -> truthy d3 = true ->
   resolve_device msg remote = Normal d3) /\
  (truthy d1 = false -> truthy d2 = false -> truthy d3 = false -> truthy d4 = true ->
   resolve_device msg remote = Normal d4) /\
  (truthy d1 = false -> truthy d2 = false -> truthy d3 = false -> truthy d4 = false ->
   resolve_device msg remote = Normal (VStr ("device-" +:+ remote))) /\
  (exists device, resolve_device msg remote = Normal device /\ truthy device = true).
Proof.
  intros Hnn d1 d2 d3 d4.
  assert (E : resolve_device msg remote =
              Normal
                (let a := if truthy d1 then d1 else d2 in
                 let b := if truthy a then a else d3 in
                 let c := if truthy b then b else d4 in
                 if truthy c then c else VStr ("device-" +:+ remote))).
  { unfold resolve_device, _extractDeviceId.
    rewrite !(member_defined msg) by exact Hnn. now rewrite !or_else_Normal. }
  cbn zeta in E. repeat split.
  - intros H1. rewrite E. now rewrite !H1.
  - intros H1 H2. rewrite E, H1. cbn iota. now rewrite !H2.
  - intros H1 H2 H3. rewrite E, H1. cbn iota. rewrite H2. cbn iota. now rewrite !H3.
  - intros H1 H2 H3 H4. rewrite E, H1. cbn iota. rewrite H2. cbn iota.
    rewrite H3. cbn iota. now rewrite !H4.
  - intros H1 H2 H3 H4. rewrite E, H1. cbn iota. rewrite H2. cbn iota.
    rewrite H3. cbn iota. now rewrite H4.
  - apply resolve_device_total, Hnn.
Qed.

(** ** A new gateway *)

Lemma strip_dashes_no_dash u : contains "-" (strip_dashes u) = false.
Proof.
  induction u as [|c u IH]; [reflexivity|]. cbn [strip_dashes].
  destruct (Ascii.eqb c "-") eqn:E; [exact IH|].
  change (String.prefix "-" (String c (strip_dashes u))
          || contains "-" (strip_dashes u) = false).
  rewrite IH, orb_false_r.
  change ((if ascii_dec "-"%char c then String.prefix "" (strip_dashes u) else false)
          = false).
  destruct (ascii_dec "-"%char c) as [<-|_]; [discriminate E|reflexivity].
Qed.

(** A gateway starts with an empty registry, no socket and an empty trace.
    Its port is never 0 (a missing or zero port becomes 18789), a supplied
    non-empty token is used as it is, and a missing or empty one is replaced
    by a generated token that contains no dash. *)
Theorem constructor_defaults options :
  let s := constructor options in
  clients s = [] /\ sockets s = [] /\ trace s = [] /\
  port s <> 0%N /\
  (opt_port options = None -> port s = 18789%N) /\
  (forall t, opt_token options = Some t -> t <> "" ->
             token s = t /\ uuid_calls s = 0%nat) /\
  (opt_token options = None \/ opt_token options = Some "" ->
   token s = strip_dashes (uuidv4 0) /\ contains "-" (token s) = false /\
   uuid_calls s = 1%nat).
Proof.
  destruct options as [p t d]. cbn.
  split; [reflexivity|]. split; [reflexivity|]. split; [reflexivity|].
  split; [|split; [|split]].
  - destruct p as [p|]; [|discriminate].
    destruct (N.eqb p 0) eqn:E; [discriminate|]. now apply N.eqb_neq in E.
  - now intros ->.
  - intros t0 [= ->] Hne. destruct (String.eqb t0 "") eqn:E; [|now split].
    apply String.eqb_eq in E. contradiction.
  - intros [->| ->]; (split; [reflexivity|split; [apply strip_dashes_no_dash|reflexivity]]).
Qed.

(** ** Edges of sendText and of the transport close *)

(** [sendText] with [null] as its options throws for a registered id,
    before anything is drawn or written; the state is left as it was. *)
Theorem sendText_null_options_throws device text ws s :
  Map.get device (clients s) = Some ws ->
  sendText device text VNull s = (Throw (TypeError_message VNull "runId"), s).
Proof.
  intros Hreg. unfold sendText. now rewrite bind_gets, Hreg.
Qed.

(** When the transport of a connection that never paired closes, the
    handler does nothing: no registry change, no log line, no
    deviceDisconnected. *)
Theorem close_of_unpaired_socket ws s :
  truthy (deviceId_of s ws) = false ->
  on_close ws s = set_readyState ws CLOSED s.
Proof.
  intros Htag. unfold on_close, _handleDisconnect. rewrite bind_gets.
  now rewrite deviceId_of_set_readyState, Htag.
Qed.

(** Once the transport of a paired connection has closed, its device id
    has no registry entry and [sendText] to it writes nothing: it returns
    false, and it throws instead when the id has no string form, since the
    'Cannot send' line cannot be built. *)
Theorem sendText_after_close ws w text options s :
  sockets s !! ws = Some w ->
  truthy (deviceId w) = true ->
  let s1 := on_close ws s in
  Map.get (deviceId w) (clients s1) = None /\
  (forall shown,
     to_String (deviceId w) = Normal shown ->
     exists s',
       sendText (deviceId w) text options s1 = (Normal false, s') /\
       frames (trace s') = frames (trace s1)) /\
  (forall e,
     to_String (deviceId w) = Throw e ->
     sendText (deviceId w) text options s1 = (Throw e, s1)).
Proof.
  intros Hw Htag s1.
  assert (Hreg : Map.get (deviceId w) (clients s1) = None).
  { subst s1. unfold on_close. rewrite (_handleDisconnect_tagged ws w s Hw Htag).
    destruct (to_String (deviceId w)); cbn; apply Map_get_delete_eq. }
  split; [exact Hreg|]. split.
  - intros shown Hs. unfold sendText.
    rewrite bind_gets, Hreg, Hs, bind_lift_Normal, bind_log.
    eexists; split; [reflexivity|]. cbn.
    now rewrite !frames_app, !app_nil_r.
  - intros e Hs. unfold sendText. now rewrite bind_gets, Hreg, Hs, bind_lift_Throw.
Qed.

(** A paired connection that pairs again under another device id keeps its
    registry entry under the old id: when its transport closes only the new
    id is removed (and announced, when it has a string form), the old id
    still leads to the closed socket, and [sendText] to the old id returns
    true without writing. *)
Theorem retagged_socket_leaves_its_old_entry ws w msg s old new :
  sockets s !! ws = Some w ->
  Map.get old (clients s) = Some ws ->
  accepted (token s) msg = true ->
  resolve_device msg (remoteInfo w) = Normal new ->
  same_value_zero old new = false ->
  let s1 := dispatch ws (remoteInfo w) msg s in
  let s2 := on_close ws s1 in
  Map.get old (clients s1) = Some ws /\
  Map.get new (clients s1) = Some ws /\
  Map.get old (clients s2) = Some ws /\
  Map.get new (clients s2) = None /\
  readyState_of s2 ws = CLOSED /\
  (forall shown,
     to_String new = Normal shown ->
     wire (trace s2) = wire (trace s1) ++ [Emit (deviceDisconnected new)]) /\
  (forall text, exists s3,
     sendText old text VUndefined s2 = (Normal true, s3) /\ trace s3 = trace s2).
Proof.
  intros Hw Hold Hacc Hd Hne s1 s2.
  pose proof (is_connect_defined _ (accepted_is_connect _ _ Hacc)) as Hnn.
  destruct (resolve_device_total msg (remoteInfo w) Hnn) as (new' & Hd' & Htnew).
  rewrite Hd in Hd'. injection Hd' as <-.
  destruct (dispatch_accepted ws (remoteInfo w) msg s new Hacc Hd) as (Hso & Hcl & _).
  fold s1 in Hso, Hcl.
  assert (Hw1 : sockets s1 !! ws =
                Some (mkWebSocket (readyState w) new (remoteInfo w)))
    by (now rewrite Hso, list_lookup_alter_eq, Hw).
  pose proof (_handleDisconnect_tagged ws _ s1 Hw1 Htnew) as E.
  cbn [deviceId] in E.
  assert (Hcl2 : clients s2 = Map.delete new (clients s1)).
  { subst s2. unfold on_close. rewrite E. now destruct (to_String new). }
  assert (Hso2 : sockets s2 = sockets (set_readyState ws CLOSED s1)).
  { subst s2. unfold on_close. rewrite E. now destruct (to_String new). }
  assert (Hold2 : Map.get old (clients s2) = Some ws).
  { rewrite Hcl2, Hcl, Map_get_delete_ne, Map_get_set_ne by exact Hne. exact Hold. }
  assert (Hclosed : readyState_of s2 ws = CLOSED).
  { unfold readyState_of. rewrite Hso2. cbn -[alter].
    now rewrite list_lookup_alter_eq, Hw1. }
  split; [rewrite Hcl; now rewrite Map_get_set_ne|].
  split; [rewrite Hcl; apply Map_get_set_eq|].
  split; [exact Hold2|].
  split; [rewrite Hcl2; apply Map_get_delete_eq|].
  split; [exact Hclosed|].
  split.
  - intros shown Hs. subst s2. unfold on_close. rewrite E, Hs. cbn.
    rewrite <- app_assoc, wire_app. reflexivity.
  - intros text.
    destruct (sendText_registered old text VUndefined ws s2 Hold2 ltac:(discriminate))
      as (s3 & Hrun & Htr & _).
    rewrite Hclosed in Htr. cbn in Htr. rewrite app_nil_r in Htr.
    now exists s3.
Qed.

(** A frame that parses to something other than an object (a number, a
    string, a boolean, an array, null) never produces a frame or a
    notification and changes neither the registry nor a socket. *)
Theorem frame_that_is_no_object_is_ignored ws remote msg s :
  (forall ref fields, msg <> VObj ref fields) ->
  silently_ignored s (dispatch ws remote msg s) /\
  same_gateway s (dispatch ws remote msg s).
Proof.
  intros Hno.
  assert (Hm : forall k, opt_member msg k = VUndefined)
    by (intros k; destruct msg; try reflexivity; now destruct (Hno ref fields)).
  split.
  - unfold silently_ignored, dispatch, _handleMessage.
    rewrite bind_gets, bind_debug_line.
    destruct (nullish msg) eqn:Hnn.
    + unfold member at 1. rewrite Hnn, bind_lift_Throw. cbn.
      rewrite <- app_assoc, !wire_app, wire_debug_line. cbn. apply app_nil_r.
    + rewrite (member_defined msg) by exact Hnn.
      rewrite bind_lift_Normal, Hm. cbn.
      rewrite wire_app, wire_debug_line. apply app_nil_r.
  - apply dispatch_not_accepted. unfold accepted, is_connect. now rewrite Hm.
Qed.

(** A connect request that presents the gateway token with a device id
    that has no string form (an object with a [toString] property of its
    own, as [{"toString":1}]): the connection is registered and tagged,
    then the template literal of the 'Device Paired' line throws.  No frame
    is written and deviceConnected is not raised; the listener's [catch]
    logs the TypeError as a parse error.  The registry entry stays, so a
    later [sendText] to that id reaches the connection. *)
Theorem connect_with_unprintable_device_id ws w msg s device e :
  sockets s !! ws = Some w ->
  is_connect msg = true ->
  _extractToken msg = Normal (VStr (token s)) ->
  resolve_device msg (remoteInfo w) = Normal device ->
  to_String device = Throw e ->
  let s' := dispatch ws (remoteInfo w) msg s in
  fst (_handleMessage ws msg (remoteInfo w) s) = Throw e /\
  trace s' =
    trace s
    ++ (if debug s then [Console ("IN < " +:+ JSON_stringify msg)] else [])
    ++ [Console ("[RabbitGateway] Error parsing message from " +:+ remoteInfo w
                 +:+ ": " +:+ e)] /\
  silently_ignored s s' /\
  Map.get device (clients s') = Some ws /\
  deviceId_of s' ws = device /\
  (readyState w = OPEN ->
   forall text, exists s'' frame,
     sendText device text VUndefined s' = (Normal true, s'') /\
     frames (trace s'') = frames (trace s') ++ [(ws, frame)]).
Proof.
  intros Hw Hc Ht Hd Hs s'. subst s'. unfold dispatch.
  rewrite (handle_connect_unprintable ws msg (remoteInfo w) s device e Hc Ht Hd Hs).
  set (s' := snd (report _ _ _)).
  assert (Hreg : Map.get device (clients s') = Some ws) by apply Map_get_set_eq.
  assert (Hso : sockets s' !! ws = Some (mkWebSocket (readyState w) device (remoteInfo w))).
  { subst s'. cbn -[alter]. now rewrite list_lookup_alter_eq, Hw. }
  assert (Htrace : trace s' =
            trace s
            ++ (if debug s then [Console ("IN < " +:+ JSON_stringify msg)] else [])
            ++ [Console ("[RabbitGateway] Error parsing message from " +:+ remoteInfo w
                         +:+ ": " +:+ e)])
    by (subst s'; cbn; now rewrite <- app_assoc).
  clearbody s'.
  split; [reflexivity|]. split; [exact Htrace|].
  split.
  { unfold silently_ignored. rewrite Htrace, !wire_app, wire_debug_line. cbn.
    apply app_nil_r. }
  split; [exact Hreg|]. split; [unfold deviceId_of; now rewrite Hso|].
  intros Hopen text.
  destruct (sendText_registered device text VUndefined ws s' Hreg ltac:(discriminate))
    as (s'' & Hrun & Htr & _).
  assert (Hrs : readyState_of s' ws = OPEN)
    by (unfold readyState_of; now rewrite Hso).
  rewrite Hrs in Htr. cbn in Htr.
  exists s''. eexists. split; [exact Hrun|].
  rewrite Htr, !frames_app, frames_debug_line. reflexivity.
Qed.

(** ** A frame in a turn of its own *)

Lemma same_queue_refl s : same_queue s s.
Proof. now split. Qed.

Lemma same_queue_trans s1 s2 s3 : same_queue s1 s2 -> same_queue s2 s3 -> same_queue s1 s3.
Proof. intros [? ?] [? ?]. split; congruence. Qed.

Lemma keeps_same_queue_modify (g : State -> State) :
  (forall s, pending (g s) = pending s) ->
  (forall s, parse_calls (g s) = parse_calls s) ->
  keeps same_queue (modify g).
Proof. intros H1 H2 s. split; [apply H1|apply H2]. Qed.

Lemma keeps_same_queue_sendJson ws data : keeps same_queue (_sendJson ws data).
Proof. intros s. destruct (_sendJson_cases ws data s) as [t ->]. now split. Qed.

Lemma keeps_same_queue_new_uuid : keeps same_queue new_uuid.
Proof. intros s. now split. Qed.

Lemma keeps_same_queue_now : keeps same_queue now.
Proof. intros s. now split. Qed.

Ltac keeps_same_queue :=
  repeat first
    [ apply keeps_same_queue_sendJson
    | apply keeps_same_queue_new_uuid
    | apply keeps_same_queue_now
    | apply keeps_same_queue_modify; reflexivity
    | apply keeps_ret; exact same_queue_refl
    | apply keeps_lift; exact same_queue_refl
    | apply keeps_gets; exact same_queue_refl
    | match goal with |- keeps _ (if ?b then _ else _) => destruct b end
    | match goal with |- keeps _ (match ?x with _ => _ end) => destruct x end
    | apply keeps_bind; [exact same_queue_trans| |intros ?] ].

(** The handler neither parses nor settles anything. *)
Lemma _handleMessage_same_queue ws msg remote :
  keeps same_queue (_handleMessage ws msg remote).
Proof.
  unfold _handleMessage, when, log, emit, console_log. keeps_same_queue.
Qed.

Lemma with_pending_id s : with_pending (pending s) s = s.
Proof. now destruct s. Qed.

(** [dispatch] is the listener followed by the microtask checkpoint: when
    no rejected handler is waiting and a frame parses, receiving it and
    then running the microtasks is handling the parsed message with its
    [catch] run at once. *)
Lemma frame_in_a_turn_of_its_own ws w data msg s :
  sockets s !! ws = Some w ->
  pending s = [] ->
  JSON_parse (parse_calls s) data = Normal msg ->
  run [receives ws data; microtasks] s =
  dispatch ws (remoteInfo w) msg (with_parse_calls (S (parse_calls s)) s).
Proof.
  intros Hw Hpe Hparse. cbn [run fold_left step].
  unfold on_message, parse. rewrite Hw, Hparse.
  set (s1 := with_parse_calls (S (parse_calls s)) s).
  unfold handle, dispatch.
  pose proof (_handleMessage_same_queue ws msg (remoteInfo w) s1) as [Hq _].
  destruct (_handleMessage ws msg (remoteInfo w) s1) as [[u|e] s2]; cbn [snd] in Hq.
  - assert (Hp2 : pending s2 = []) by (rewrite Hq; exact Hpe).
    unfold run_microtasks. rewrite Hp2. cbn [fold_left].
    rewrite <- Hp2. apply with_pending_id.
  - assert (Hp2 : pending s2 = []) by (rewrite Hq; exact Hpe).
    unfold run_microtasks. cbn [pending with_pending]. rewrite Hp2. cbn [app fold_left].
    replace (with_pending [] (with_pending [(remoteInfo w, e)] s2)) with s2;
      [reflexivity|].
    clear -Hp2. destruct s2; cbn in *. now subst.
Qed.

(** ** The pairing code *)

Lemma In_push_if_lan a infos results :
  In a (fold_left push_if_lan infos results) <->
  In a results \/
  exists net, In net infos /\ address net = a /\ family net = VStr "IPv4" /\
              internal net = false /\ lan_prefix a = true.
Proof using Type.
  clear uuidv4 Date_now JSON_parse JSON_stringify TypeError_message
        Number_toString ToPrimitive_message WebSocket_Server
        os_networkInterfaces execPromise String_trim QRCode_toDataURL.
  revert results. induction infos as [|net infos IH]; intros results; cbn [fold_left].
  - split; [now left|]. intros [H|(net & [] & _)]. exact H.
  - rewrite IH. unfold push_if_lan.
    destruct (strict_eq_str (family net) "IPv4") eqn:Ef;
      destruct (internal net) eqn:Ei; cbn [andb negb];
      [ | destruct (lan_prefix (address net)) eqn:El | | ].
    all: split;
      [ intros [H|(n & Hin & Hn)];
        [ try (apply in_app_or in H as [H|[<-|[]]]);
          first [ now left
                | right; exists net; apply strict_eq_str_eq in Ef;
                  repeat split; try assumption; now left ]
        | right; exists n; split; [now right|exact Hn] ]
      | intros [H|(n & [<-|Hin] & Ha & Hf & Hi & Hl)];
        [ left; try (apply in_or_app); tauto
        | try (subst a; left; apply in_or_app; right; now left);
          try (rewrite Hf in Ef; discriminate Ef);
          try congruence
        | right; exists n; tauto ] ].
Qed.

(** [_getLanIps] returns exactly the addresses of the interfaces that are
    IPv4, not internal, and start with 192.168., 10. or 172.; loopback and
    IPv6 addresses are never returned. *)
Theorem lan_ips_are_the_private_ipv4_addresses a :
  In a _getLanIps <->
  exists name infos net,
    In (name, infos) os_networkInterfaces /\ In net infos /\
    address net = a /\ family net = VStr "IPv4" /\ internal net = false /\
    lan_prefix a = true.
Proof using Type.
  unfold _getLanIps.
  assert (G : forall (nets : list (string * list NetworkInterfaceInfo)) results,
    In a (fold_left (fun results entry => fold_left push_if_lan (snd entry) results)
            nets results) <->
    In a results \/
    exists name infos net,
      In (name, infos) nets /\ In net infos /\
      address net = a /\ family net = VStr "IPv4" /\ internal net = false /\
      lan_prefix a = true).
  { induction nets as [|[name infos] nets IH]; intros results; cbn [fold_left snd].
    - split; [now left|]. intros [H|(? & ? & ? & [] & _)]. exact H.
    - rewrite IH, In_push_if_lan. split.
      + intros [[H|(net & Hin & Hn)]|(n & i & net & Hin & Hn)].
        * now left.
        * right. exists name, infos, net. split; [now left|]. now split.
        * right. exists n, i, net. split; [now right|exact Hn].
      + intros [H|(n & i & net & [[= -> ->]|Hin] & Hi & Hn)].
        * now left; left.
        * left; right. exists net. now split.
        * right. exists n, i, net. now split. }
  rewrite G. split; [intros [[]|H]; exact H|now right].
Qed.

Lemma first_tailscale_ip_Some commands ip :
  first_tailscale_ip commands = Some ip ->
  ip <> "" /\
  exists before cmd after stdout,
    commands = before ++ cmd :: after /\
    execPromise cmd = Normal stdout /\ stdout <> "" /\ ip = String_trim stdout /\
    forall c, In c before -> first_tailscale_ip [c] = None.
Proof.
  induction commands as [|cmd rest IH]; cbn [first_tailscale_ip]; [discriminate|].
  destruct (execPromise cmd) as [stdout|err] eqn:Ex.
  - destruct (truthy (VStr stdout) && truthy (VStr (String_trim stdout))) eqn:Et.
    + intros [= <-]. apply andb_true_iff in Et as [Hout Htrim]. cbn in Hout, Htrim.
      split; [intros E; rewrite E in Htrim; discriminate|].
      exists [], cmd, rest, stdout. repeat split; [exact Ex| |intros c []].
      intros ->. discriminate.
    + intros H. destruct (IH H) as (Hne & before & c & after & out & -> & Hc & Ho & Hip & Hb).
      split; [exact Hne|]. exists (cmd :: before), c, after, out.
      repeat split; try assumption.
      intros c' [<-|Hin]; [|now apply Hb]. cbn [first_tailscale_ip]. now rewrite Ex, Et.
  - intros H. destruct (IH H) as (Hne & before & c & after & out & -> & Hc & Ho & Hip & Hb).
    split; [exact Hne|]. exists (cmd :: before), c, after, out.
    repeat split; try assumption.
    intros c' [<-|Hin]; [|now apply Hb]. cbn [first_tailscale_ip]. now rewrite Ex.
Qed.

Lemma first_tailscale_ip_None commands :
  first_tailscale_ip commands = None <->
  forall c, In c commands -> first_tailscale_ip [c] = None.
Proof.
  induction commands as [|cmd rest IH]; cbn [first_tailscale_ip].
  - split; [intros _ c []|reflexivity].
  - destruct (execPromise cmd) as [stdout|err] eqn:Ex.
    + destruct (truthy (VStr stdout) && truthy (VStr (String_trim stdout))) eqn:Et.
      * split; [discriminate|]. intros H. specialize (H cmd (or_introl eq_refl)).
        cbn [first_tailscale_ip] in H. now rewrite Ex, Et in H.
      * rewrite IH. split.
        -- intros H c [<-|Hin]; [cbn [first_tailscale_ip]; now rewrite Ex, Et|now apply H].
        -- intros H c Hin. apply H. now right.
    + rewrite IH. split.
      * intros H c [<-|Hin]; [cbn [first_tailscale_ip]; now rewrite Ex|now apply H].
      * intros H c Hin. apply H. now right.
Qed.

(** [_getTailscaleIp] returns the trimmed output of the first of its four
    commands that succeeds and prints more than white space: commands that
    fail or print nothing are passed over, the result is never the empty
    string, and it is null exactly when no command is usable. *)
Theorem tailscale_ip_is_the_first_usable_output :
  (forall ip,
     _getTailscaleIp = Some ip ->
     ip <> "" /\
     exists before cmd after stdout,
       tailscale_commands = before ++ cmd :: after /\
       execPromise cmd = Normal stdout /\ stdout <> "" /\ ip = String_trim stdout /\
       forall c, In c before -> first_tailscale_ip [c] = None) /\
  (_getTailscaleIp = None <->
   forall c, In c tailscale_commands -> first_tailscale_ip [c] = None).
Proof.
  split; [intros ip; apply first_tailscale_ip_Some|apply first_tailscale_ip_None].
Qed.

Lemma includes_In ips x : includes ips x = true <-> In x ips.
Proof.
  unfold includes. rewrite existsb_exists. split.
  - intros (y & Hin & E). apply String.eqb_eq in E. now subst.
  - intros H. exists x. split; [exact H|apply String.eqb_refl].
Qed.

(** The addresses in the pairing payload are the LAN addresses, in their
    order; with [useTailscale] the Tailscale address is put in front of
    them, unless none was found or it is one of them already. *)
Theorem pairing_addresses :
  qr_ips false = _getLanIps /\
  (_getTailscaleIp = None -> qr_ips true = _getLanIps) /\
  (forall ip, _getTailscaleIp = Some ip -> In ip _getLanIps ->
              qr_ips true = _getLanIps) /\
  (forall ip, _getTailscaleIp = Some ip -> ~ In ip _getLanIps ->
              qr_ips true = ip :: _getLanIps).
Proof.
  unfold qr_ips. split; [reflexivity|]. split; [now intros ->|]. split.
  - intros ip Hts Hin. rewrite Hts.
    apply includes_In in Hin. rewrite Hin. now rewrite andb_false_r.
  - intros ip Hts Hnin. rewrite Hts.
    destruct (first_tailscale_ip_Some _ _ Hts) as (Hne & _).
    assert (Ht : truthy (VStr ip) = true).
    { cbn. destruct (String.eqb ip "") eqn:E; [|reflexivity].
      apply String.eqb_eq in E. contradiction. }
    destruct (includes _getLanIps ip) eqn:Ei; [now apply includes_In in Ei|].
    now rewrite Ht.
Qed.

(** The pairing code carries the gateway's token and port, and that token
    opens the handshake: whatever happens to the gateway afterwards, a
    connect request presenting the token read from the payload is
    accepted. *)
Theorem pairing_code_token_is_accepted useTailscale events dev id s :
  token s <> "" ->
  let payload := qr_payload (qr_ips useTailscale) s in
  getQrCode useTailscale s = QRCode_toDataURL (JSON_stringify payload) /\
  opt_member payload "port" = VNum (Z.of_N (port s)) /\
  exists tok,
    opt_member payload "token" = VStr tok /\
    accepted (token (run events s)) (connect_request tok dev id) = true.
Proof.
  intros Hne payload. split; [reflexivity|]. split; [reflexivity|].
  exists (token s). split; [reflexivity|].
  destruct (run_identity events s) as (-> & _).
  unfold accepted, _extractToken, connect_request.
  rewrite !member_defined by reflexivity. rewrite !or_else_Normal. cbn.
  destruct (String.eqb (token s) "") eqn:E;
    [apply String.eqb_eq in E; contradiction|].
  cbn [negb truthy]. rewrite E. cbn [negb truthy]. rewrite E. cbn [negb].
  apply strict_eq_str_refl.
Qed.

(** ** Who a frame is written to *)

Lemma writes_only_on_refl ws s : writes_only_on ws s s.
Proof. exists []. rewrite app_nil_r. split; [reflexivity|intros ? ? []]. Qed.

Lemma writes_only_on_trans ws s1 s2 s3 :
  writes_only_on ws s1 s2 -> writes_only_on ws s2 s3 -> writes_only_on ws s1 s3.
Proof.
  intros (t & Ht & H) (t' & Ht' & H'). exists (t ++ t').
  split; [now rewrite Ht', Ht, app_assoc|].
  intros ws' f Hin. apply in_app_or in Hin as [Hin|Hin]; eauto.
Qed.

Lemma writes_only_on_console ws s line : writes_only_on ws s (perform (Console line) s).
Proof. exists [Console line]. split; [reflexivity|]. now intros ? ? [E|[]]. Qed.

Lemma writes_only_on_debug_line ws s (b : bool) line :
  writes_only_on ws s (perform_if b (Console line) s).
Proof.
  exists (if b then [Console line] else []). split; [reflexivity|].
  intros ? ? Hin. now destruct b; [destruct Hin as [E|[]]|destruct Hin].
Qed.

Lemma writes_only_on_quiet ws s s' : trace s' = trace s -> writes_only_on ws s s'.
Proof. intros H. exists []. rewrite app_nil_r. split; [exact H|intros ? ? []]. Qed.

Lemma keeps_writes_log ws line : keeps (writes_only_on ws) (log line).
Proof. intros s. apply writes_only_on_console. Qed.

Lemma keeps_writes_emit ws n : keeps (writes_only_on ws) (emit n).
Proof. intros s. exists [Emit n]. split; [reflexivity|]. now intros ? ? [E|[]]. Qed.

Lemma keeps_writes_new_uuid ws : keeps (writes_only_on ws) new_uuid.
Proof. intros s. now apply writes_only_on_quiet. Qed.

Lemma keeps_writes_now ws : keeps (writes_only_on ws) now.
Proof. intros s. now apply writes_only_on_quiet. Qed.

Lemma keeps_writes_modify ws (g : State -> State) :
  (forall s, trace (g s) = trace s) -> keeps (writes_only_on ws) (modify g).
Proof. intros H s. apply writes_only_on_quiet, H. Qed.

Lemma keeps_writes_sendJson ws data : keeps (writes_only_on ws) (_sendJson ws data).
Proof.
  intros s. destruct (decide (readyState_of s ws = OPEN)) as [Ho|Ho].
  - rewrite _sendJson_open by exact Ho. rewrite perform_if_spec.
    eapply writes_only_on_trans; [apply writes_only_on_debug_line|].
    exists [Send ws (JSON_stringify data)]. split; [reflexivity|].
    intros ws' f [E|[]]. now injection E as <- _.
  - rewrite _sendJson_not_open by exact Ho. apply writes_only_on_refl.
Qed.

Ltac keeps_writes :=
  repeat first
    [ apply keeps_writes_sendJson
    | apply keeps_writes_log
    | apply keeps_writes_emit
    | apply keeps_writes_new_uuid
    | apply keeps_writes_now
    | apply keeps_writes_modify; reflexivity
    | apply keeps_ret; apply writes_only_on_refl
    | apply keeps_lift; apply writes_only_on_refl
    | apply keeps_gets; apply writes_only_on_refl
    | match goal with |- keeps _ (if ?b then _ else _) => destruct b end
    | match goal with |- keeps _ (match ?x with _ => _ end) => destruct x end
    | apply keeps_bind; [apply writes_only_on_trans| |intros ?] ].

(** Whatever a socket receives, the handler answers on that socket only:
    no frame it writes goes to another connection. *)
Theorem replies_go_to_the_sender ws data s :
  exists t,
    trace (on_message ws data s) = trace s ++ t /\
    forall ws' f, In (Send ws' f) t -> ws' = ws.
Proof.
  change (writes_only_on ws s (on_message ws data s)).
  unfold on_message, parse.
  destruct (sockets s !! ws) as [w|]; [|apply writes_only_on_refl].
  apply (writes_only_on_trans _ _ (with_parse_calls (S (parse_calls s)) s));
    [now apply writes_only_on_quiet|].
  generalize (with_parse_calls (S (parse_calls s)) s). intros s1.
  destruct (JSON_parse (parse_calls s) data) as [msg|err]; [|apply keeps_writes_log].
  assert (H : keeps (writes_only_on ws) (_handleMessage ws msg (remoteInfo w))).
  { intros s0. unfold _handleMessage. rewrite bind_gets, bind_debug_line.
    eapply writes_only_on_trans;
      [apply (writes_only_on_debug_line ws s0 (debug s0)
                ("IN < " +:+ JSON_stringify msg))|].
    generalize (perform_if (debug s0) (Console ("IN < " +:+ JSON_stringify msg)) s0).
    match goal with
    | |- forall x, writes_only_on ws x (snd (@?m x)) =>
        change (keeps (writes_only_on ws) m)
    end.
    keeps_writes. }
  unfold handle. specialize (H s1).
  destruct (_handleMessage ws msg (remoteInfo w) s1) as [[u|e] s2]; cbn in H;
    [exact H|].
  eapply writes_only_on_trans; [exact H|now apply writes_only_on_quiet].
Qed.

(** [sendText] writes on the socket the registry holds for the device id
    and on no other; for an id without an entry it writes nowhere. *)
Theorem sendText_writes_to_the_registered_socket device text options s :
  exists t,
    trace (snd (sendText device text options s)) = trace s ++ t /\
    forall ws f, In (Send ws f) t -> Map.get device (clients s) = Some ws.
Proof.
  unfold sendText. rewrite bind_gets.
  destruct (Map.get device (clients s)) as [ws|] eqn:Hreg.
  - assert (H : writes_only_on ws s
                  (snd ((let options := match options with
                                        | VUndefined => VObj literal []
                                        | _ => options
                                        end in
                         let* r := lift (member options "runId") in
                         let* runId := (if truthy r then ret r
                                        else let* u := new_uuid in ret (VStr u)) in
                         let* k := lift (member options "sessionKey") in
                         let sessionKey := if truthy k then k else VStr "main" in
                         let* ts := now in
                         let* _ := _sendJson ws (chat_event runId sessionKey text ts) in
                         ret true) s))).
    { generalize s.
      match goal with
      | |- forall x, writes_only_on ws x (snd (@?m x)) =>
          change (keeps (writes_only_on ws) m)
      end.
      cbn zeta. keeps_writes. }
    destruct H as (t & Ht & Hws). exists t. split; [exact Ht|].
    intros ws' f Hin. now rewrite (Hws ws' f Hin).
  - destruct (to_String device) as [shown|e].
    + rewrite bind_lift_Normal, bind_log.
      exists [Console ("[RabbitGateway] Cannot send to " +:+ shown +:+ ": Not connected")].
      split; [reflexivity|]. now intros ? ? [E|[]].
    + rewrite bind_lift_Throw. exists []. rewrite app_nil_r.
      split; [reflexivity|]. intros ? ? [].
Qed.

End RabbitGateway.

(** ** The theorems at work on the sample runtime *)

Local Abbreviation sample_one :=
  (one_socket sample_uuid sample_clock sample_stringify sample_Number_toString).
Local Abbreviation sample_paired :=
  (paired_socket sample_uuid sample_clock sample_stringify sample_TypeError
     sample_Number_toString sample_ToPrimitive).
Local Abbreviation sample_two :=
  (two_sockets sample_uuid sample_clock sample_stringify sample_TypeError
     sample_Number_toString sample_ToPrimitive).
Local Abbreviation sample_closing :=
  (closing_socket sample_uuid sample_clock sample_stringify sample_TypeError
     sample_Number_toString sample_ToPrimitive).
Local Abbreviation sample_handleMessage :=
  (_handleMessage sample_uuid sample_clock sample_stringify sample_TypeError
     sample_Number_toString sample_ToPrimitive).
Local Abbreviation sample_dispatch :=
  (dispatch sample_uuid sample_clock sample_stringify sample_TypeError
     sample_Number_toString sample_ToPrimitive).
Local Abbreviation sample_dispatch_all :=
  (dispatch_all sample_uuid sample_clock sample_stringify sample_TypeError
     sample_Number_toString sample_ToPrimitive).
Local Abbreviation sample_on_message :=
  (on_message sample_uuid sample_clock sample_parse sample_stringify sample_TypeError
     sample_Number_toString sample_ToPrimitive).
Local Abbreviation sample_deliver :=
  (deliver sample_uuid sample_clock sample_parse sample_stringify sample_TypeError
     sample_Number_toString sample_ToPrimitive).
Local Abbreviation sample_sendText :=
  (sendText sample_uuid sample_clock sample_stringify sample_TypeError
     sample_Number_toString sample_ToPrimitive).
Local Abbreviation sample_on_close :=
  (on_close sample_Number_toString sample_ToPrimitive).
Local Abbreviation sample_handleDisconnect :=
  (_handleDisconnect sample_Number_toString sample_ToPrimitive).
Local Abbreviation sample_start := (start sample_Number_toString sample_Server).
Local Abbreviation sample_run :=
  (run sample_uuid sample_clock sample_parse sample_stringify sample_TypeError
     sample_Number_toString sample_ToPrimitive sample_Server).



Lemma requests_outside_the_handshake_witness :
  let s := sample_one in
  let chat := chat_request "hi" "main" "r1" "4" in
  let bare := VObj literal [("method", VStr "chat.send"); ("id", VStr "5")] in
  (silently_ignored s (snd (sample_handleMessage 0 ping_request "10.0.0.2:50001" s)) /\
   fst (sample_handleMessage 0 ping_request "10.0.0.2:50001" s) = Normal tt) /\
  (exists s',
     sample_handleMessage 0 chat "10.0.0.2:50001" s = (Normal tt, s') /\
     wire (trace s') =
       wire (trace s)
       ++ [Emit (message (VStr "unknown") (VStr "hi") (VStr "main") (VStr "r1"));
           Send 0 (sample_stringify
             (VObj literal
                [("type", VStr "res"); ("id", VStr "4"); ("ok", VBool true)]))] /\
     same_gateway s s') /\
  (exists s',
     sample_handleMessage 0 bare "10.0.0.2:50001" s =
       (Throw (sample_TypeError VUndefined "message"), s') /\
     silently_ignored s s' /\
     same_gateway s s').
Proof.
  split; [|split].
  - destruct (proj1 (requests_outside_the_handshake sample_uuid sample_clock
                       sample_stringify sample_TypeError sample_Number_toString
                       sample_ToPrimitive 0
                       (mkWebSocket OPEN VUndefined "10.0.0.2:50001") ping_request
                       "10.0.0.2:50001" sample_one eq_refl eq_refl) eq_refl)
      as (Hignored & _ & _ & Hreturns).
    split; [exact Hignored|exact (Hreturns eq_refl)].
  - exact (proj1 (proj2 (requests_outside_the_handshake sample_uuid sample_clock
                           sample_stringify sample_TypeError sample_Number_toString
                           sample_ToPrimitive 0
                           (mkWebSocket OPEN VUndefined "10.0.0.2:50001")
                           (chat_request "hi" "main" "r1" "4") "10.0.0.2:50001"
                           sample_one eq_refl eq_refl) eq_refl eq_refl) eq_refl).
  - exact (proj2 (proj2 (requests_outside_the_handshake sample_uuid sample_clock
                           sample_stringify sample_TypeError sample_Number_toString
                           sample_ToPrimitive 0
                           (mkWebSocket OPEN VUndefined "10.0.0.2:50001")
                           (VObj literal [("method", VStr "chat.send"); ("id", VStr "5")])
                           "10.0.0.2:50001"
                           sample_one eq_refl eq_refl) eq_refl eq_refl) eq_refl).
Defined.

(** A chat.send on a connection that never paired reaches the application
    and is acknowledged. *)
Lemma chat_on_unpaired_socket_is_handled :
  let s := sample_one in
  let chat := chat_request "hi" "main" "r1" "4" in
  let s' := snd (sample_handleMessage 0 chat "10.0.0.2:50001" s) in
  deviceId_of s 0 = VUndefined /\
  is_connect chat = false /\
  ~ silently_ignored s s' /\
  wire (trace s') =
    wire (trace s)
    ++ [Emit (message (VStr "unknown") (VStr "hi") (VStr "main") (VStr "r1"));
        Send 0 (sample_stringify
          (VObj literal [("type", VStr "res"); ("id", VStr "4"); ("ok", VBool true)]))].
Proof.
  split; [reflexivity|]. split; [reflexivity|]. split.
  - unfold silently_ignored. vm_compute. discriminate.
  - vm_compute. reflexivity.
Qed.

Lemma device_tag_changes_only_by_accepted_connect_witness :
  let s := sample_paired in
  deviceId_of
    (sample_deliver 0
       [sample_stringify (chat_request "hi" "main" "r1" "4");
        "not json";
        sample_stringify (connect_request "guess" "d1" "3")] s) 0
  = VStr "d1" /\
  deviceId_of
    (sample_dispatch 0 "10.0.0.2:50001" (connect_request "secret" "d2" "2") s) 0
  = VStr "d2".
Proof.
  destruct (device_tag_changes_only_by_accepted_connect sample_uuid sample_clock
              sample_parse sample_stringify sample_TypeError sample_Number_toString
              sample_ToPrimitive 0
              (mkWebSocket OPEN (VStr "d1") "10.0.0.2:50001")
              sample_paired eq_refl) as [Hkeep Hretag].
  split.
  - apply Hkeep. repeat constructor; intros call msg H; vm_compute in H;
      first [discriminate H | injection H as <-; reflexivity].
  - apply Hretag; reflexivity.
Defined.

(** A paired connection that sends a second connect request with the
    gateway token and another device id is re-tagged; its earlier registry
    entry stays. *)
Lemma paired_socket_is_retagged :
  let s := sample_paired in
  let s' := sample_on_message 0
              (sample_stringify (connect_request "secret" "d2" "2")) s in
  deviceId_of s 0 = VStr "d1" /\
  deviceId_of s' 0 = VStr "d2" /\
  deviceId_of s' 0 <> deviceId_of s 0 /\
  clients s' = [(VStr "d1", 0%nat); (VStr "d2", 0%nat)].
Proof.
  vm_compute. repeat split; discriminate.
Qed.

Lemma malformed_frame_is_only_logged_witness :
  let s := sample_one in
  let s' := sample_on_message 0 "not json" s in
  trace s' =
    trace s
    ++ [Console ("[RabbitGateway] Error parsing message from "
                 +:+ "10.0.0.2:50001" +:+ ": "
                 +:+ "Unexpected token in JSON at position 0")] /\
  sockets s' = sockets s /\
  readyState_of s' 0 = OPEN /\
  clients s' = clients s /\
  notifications (trace s') = notifications (trace s) /\
  frames (trace s') = frames (trace s) /\
  pending s' = pending s.
Proof.
  exact (malformed_frame_is_only_logged sample_uuid sample_clock sample_parse
           sample_stringify sample_TypeError sample_Number_toString
           sample_ToPrimitive 0
           (mkWebSocket OPEN VUndefined "10.0.0.2:50001") "not json"
           "Unexpected token in JSON at position 0"
           sample_one eq_refl eq_refl).
Defined.

Lemma sendText_unregistered_witness :
  let s := sample_paired in
  exists s',
    sample_sendText (VStr "d9") (VStr "hello") VUndefined s = (Normal false, s') /\
    trace s' =
      trace s ++ [Console "[RabbitGateway] Cannot send to d9: Not connected"] /\
    frames (trace s') = frames (trace s) /\
    notifications (trace s') = notifications (trace s) /\
    clients s' = clients s /\
    sockets s' = sockets s /\
    uuid_calls s' = uuid_calls s /\ clock_calls s' = clock_calls s.
Proof.
  exact (sendText_unregistered sample_uuid sample_clock sample_stringify
           sample_TypeError sample_Number_toString sample_ToPrimitive
           (VStr "d9") (VStr "hello") VUndefined sample_paired "d9"
           eq_refl eq_refl).
Defined.

Lemma sendText_chat_event_witness :
  let s := sample_paired in
  let send := sample_sendText (VStr "d1") (VStr "hello") in
  (exists s',
     send VUndefined s = (Normal true, s') /\
     frames (trace s') =
       frames (trace s)
       ++ [(0%nat, sample_stringify
                     (chat_event (VStr (sample_uuid (uuid_calls s))) (VStr "main")
                        (VStr "hello") (VNum (sample_clock (clock_calls s)))))] /\
     uuid_calls s' = S (uuid_calls s)) /\
  (exists s',
     send (VObj literal [("runId", VStr "r1")]) s = (Normal true, s') /\
     frames (trace s') =
       frames (trace s)
       ++ [(0%nat, sample_stringify
                     (chat_event (VStr "r1") (VStr "main") (VStr "hello")
                        (VNum (sample_clock (clock_calls s)))))] /\
     uuid_calls s' = uuid_calls s).
Proof.
  destruct (sendText_chat_event sample_uuid sample_clock sample_stringify
              sample_TypeError sample_Number_toString sample_ToPrimitive
              (VStr "d1") (VStr "hello") 0 sample_paired
              eq_refl eq_refl) as (Hdefault & Hgiven & _).
  split; [exact Hdefault|].
  destruct (Hgiven (VObj literal [("runId", VStr "r1")]) ltac:(discriminate))
    as (s' & runId & sessionKey & Hrun & Hframes & Hr & _ & _ & Hk).
  destruct (Hr eq_refl) as [-> Hu]. rewrite (Hk eq_refl) in Hframes.
  exists s'. split; [exact Hrun|]. split; [exact Hframes|exact Hu].
Defined.

Lemma sendText_true_on_closed_transport_witness :
  let s := sample_closing in
  readyState_of s 0 = CLOSING /\
  exists s',
    sample_sendText (VStr "d1") (VStr "hello") VUndefined s = (Normal true, s') /\
    trace s' = trace s /\
    clients s' = clients s /\
    sockets s' = sockets s.
Proof.
  split; [reflexivity|].
  apply (sendText_true_on_closed_transport sample_uuid sample_clock sample_stringify
           sample_TypeError sample_Number_toString sample_ToPrimitive
           (VStr "d1") (VStr "hello") VUndefined 0);
    [reflexivity | discriminate | discriminate].
Defined.

Lemma start_logs_the_token_witness :
  let s := fresh_gateway sample_uuid in
  let far := constructor sample_uuid (mkOptions (Some 70000%N) (Some "secret") None) in
  (fst (sample_start s) = Normal tt /\
   console (trace (snd (sample_start s))) =
     ["[RabbitGateway] Rabbit Gateway listening on port 18789";
      "[RabbitGateway] Gateway Token: secret"]) /\
  sample_start far = (Throw "options.port should be >= 0 and < 65536", far).
Proof.
  split.
  - destruct (proj1 (start_logs_the_token sample_Number_toString sample_Server
                       (fresh_gateway sample_uuid)) eq_refl)
      as (Hreturns & Hlines & _).
    split; [exact Hreturns|exact Hlines].
  - exact (proj2 (start_logs_the_token sample_Number_toString sample_Server
                    (constructor sample_uuid
                       (mkOptions (Some 70000%N) (Some "secret") None)))
             "options.port should be >= 0 and < 65536" eq_refl).
Defined.

(** A gateway created without the debug option logs its token when it
    starts. *)
Lemma token_logged_with_debug_off :
  let s := fresh_gateway sample_uuid in
  let s' := snd (sample_start s) in
  debug s = false /\
  debug s' = false /\
  fst (sample_start s) = Normal tt /\
  console (trace s') =
    ["[RabbitGateway] Rabbit Gateway listening on port 18789";
     "[RabbitGateway] Gateway Token: secret"] /\
  existsb (contains (token s)) (console (trace s')) = true.
Proof. vm_compute. now repeat split. Qed.

Lemma repairing_replaces_registry_entry_witness :
  let s := sample_two in
  let s' := sample_dispatch 1 "10.0.0.3:50002" (connect_request "secret" "d1" "2") s in
  Map.get (VStr "d1") (clients s) = Some 0%nat /\
  Map.get (VStr "d1") (clients s') = Some 1%nat /\
  sockets s' !! 0%nat = sockets s !! 0%nat /\
  exists s'' frame,
    sample_sendText (VStr "d1") (VStr "hello") VUndefined s' = (Normal true, s'') /\
    frames (trace s'') = frames (trace s') ++ [(1%nat, frame)].
Proof.
  destruct (repairing_replaces_registry_entry sample_uuid sample_clock sample_stringify
              sample_TypeError sample_Number_toString sample_ToPrimitive
              1 (mkWebSocket OPEN VUndefined "10.0.0.3:50002")
              (connect_request "secret" "d1" "2") sample_two
              (VStr "d1") eq_refl eq_refl eq_refl eq_refl) as (Hreg & Hother & Hsend).
  split; [reflexivity|]. split; [exact Hreg|].
  split; [apply Hother; discriminate|]. apply Hsend.
Defined.

Lemma close_of_paired_socket_witness :
  let s := sample_paired in
  let opaque := VObj literal [("toString", VNum 1)] in
  let t := sample_dispatch 0 "10.0.0.2:50001" (opaque_id_request "secret" "6")
             sample_one in
  (Map.get (VStr "d1") (clients (sample_on_close 0 s)) = None /\
   trace (sample_on_close 0 s) =
     trace s
     ++ [Console "[RabbitGateway] Device disconnected: d1";
         Emit (deviceDisconnected (VStr "d1"))]) /\
  (Map.get opaque (clients t) = Some 0%nat /\
   Map.get opaque (clients (sample_on_close 0 t)) = None /\
   fst (sample_handleDisconnect 0 (set_readyState 0 CLOSED t))
   = Throw sample_ToPrimitive /\
   trace (sample_on_close 0 t) = trace t).
Proof.
  split.
  - destruct (close_of_paired_socket sample_Number_toString sample_ToPrimitive 0
                (mkWebSocket OPEN (VStr "d1") "10.0.0.2:50001") sample_paired
                eq_refl eq_refl) as (Hgone & _ & _ & _ & Hshown & _).
    split; [exact Hgone|exact (proj2 (Hshown "d1" eq_refl))].
  - destruct (close_of_paired_socket sample_Number_toString sample_ToPrimitive 0
                (mkWebSocket OPEN (VObj literal [("toString", VNum 1)]) "10.0.0.2:50001")
                (sample_dispatch 0 "10.0.0.2:50001" (opaque_id_request "secret" "6")
                   sample_one)
                eq_refl eq_refl) as (Hgone & _ & _ & _ & _ & Hthrows).
    split; [reflexivity|]. split; [exact Hgone|].
    exact (Hthrows sample_ToPrimitive eq_refl).
Defined.

Lemma chat_send_on_paired_socket_witness :
  let s := sample_paired in
  let chat := chat_request "hi" "main" "r1" "4" in
  exists s',
    sample_handleMessage 0 chat "10.0.0.2:50001" s = (Normal tt, s') /\
    wire (trace s') =
      wire (trace s)
      ++ [Emit (message (VStr "d1") (VStr "hi") (VStr "main") (VStr "r1"));
          Send 0 (sample_stringify
            (VObj literal
               [("type", VStr "res"); ("id", VStr "4"); ("ok", VBool true)]))] /\
    same_gateway s s'.
Proof.
  exact (chat_send_on_paired_socket sample_uuid sample_clock sample_stringify
           sample_TypeError sample_Number_toString sample_ToPrimitive
           0 (mkWebSocket OPEN (VStr "d1") "10.0.0.2:50001")
           (chat_request "hi" "main" "r1" "4") "10.0.0.2:50001"
           sample_paired eq_refl eq_refl eq_refl eq_refl eq_refl).
Defined.

Lemma chat_send_without_params_witness :
  let s := sample_paired in
  let msg := VObj literal [("method", VStr "chat.send"); ("id", VStr "5")] in
  let s' := sample_dispatch 0 "10.0.0.2:50001" msg s in
  trace s' =
    trace s
    ++ (if debug s then [Console ("IN < " +:+ sample_stringify msg)] else [])
    ++ [Console ("[RabbitGateway] Error parsing message from " +:+ "10.0.0.2:50001"
                 +:+ ": " +:+ sample_TypeError (opt_member msg "params") "message")] /\
  silently_ignored s s' /\
  same_gateway s s'.
Proof.
  exact (chat_send_without_params sample_uuid sample_clock sample_stringify
           sample_TypeError sample_Number_toString sample_ToPrimitive
           0 "10.0.0.2:50001"
           (VObj literal [("method", VStr "chat.send"); ("id", VStr "5")])
           sample_paired eq_refl eq_refl).
Defined.

(** ** The event loop and the pairing code on the sample runtime *)

Lemma without_debug_console_comes_from_log_witness :
  let s := fresh_gateway sample_uuid in
  (exists t,
     trace (sample_run (starts :: pairing_events) s) = trace s ++ t /\
     Forall from_log t) /\
  (exists t,
     trace (sample_run [starts; server_error "EADDRINUSE" true] s) = trace s ++ t /\
     Forall (fun e => from_log e \/ exists err, e = error_line err) t /\
     In (error_line "EADDRINUSE") t).
Proof.
  split.
  - destruct (without_debug_console_comes_from_log sample_uuid sample_clock
                sample_parse sample_stringify sample_TypeError sample_Number_toString
                sample_ToPrimitive sample_Server (starts :: pairing_events)
                (fresh_gateway sample_uuid) eq_refl) as (t & Ht & _ & Hlog).
    exists t. split; [exact Ht|exact (Hlog eq_refl)].
  - destruct (without_debug_console_comes_from_log sample_uuid sample_clock
                sample_parse sample_stringify sample_TypeError sample_Number_toString
                sample_ToPrimitive sample_Server
                [starts; server_error "EADDRINUSE" true]
                (fresh_gateway sample_uuid) eq_refl) as (t & Ht & Hall & _).
    exists t. split; [exact Ht|]. split; [exact Hall|].
    vm_compute in Ht. subst t. right; right. now left.
Defined.

Lemma registry_holds_paired_sockets_witness :
  let s := sample_run pairing_events
             (constructor sample_uuid (mkOptions None (Some "secret") None)) in
  Map.get (VStr "d1") (clients s) = Some 0%nat /\
  exists w, sockets s !! 0%nat = Some w /\ truthy (deviceId w) = true.
Proof.
  split; [reflexivity|].
  exact (registry_holds_paired_sockets sample_uuid sample_clock sample_parse
           sample_stringify sample_TypeError sample_Number_toString
           sample_ToPrimitive sample_Server (mkOptions None (Some "secret") None)
           pairing_events (VStr "d1") 0%nat eq_refl).
Defined.

Lemma tagged_only_by_accepted_connect_witness :
  let s := fresh_gateway sample_uuid in
  truthy (deviceId_of s 0) = true \/
  exists data call msg,
    In (receives 0 data) pairing_events /\
    sample_parse call data = Normal msg /\
    accepted sample_TypeError (token s) msg = true.
Proof.
  exact (tagged_only_by_accepted_connect sample_uuid sample_clock sample_parse
           sample_stringify sample_TypeError sample_Number_toString
           sample_ToPrimitive sample_Server pairing_events
           (fresh_gateway sample_uuid) 0%nat eq_refl).
Defined.

Lemma registered_sockets_presented_the_token_witness :
  exists data call msg,
    In (receives 0 data) pairing_events /\
    sample_parse call data = Normal msg /\
    accepted sample_TypeError
      (token (constructor sample_uuid (mkOptions None (Some "secret") None))) msg
    = true.
Proof.
  exact (registered_sockets_presented_the_token sample_uuid sample_clock sample_parse
           sample_stringify sample_TypeError sample_Number_toString
           sample_ToPrimitive sample_Server (mkOptions None (Some "secret") None)
           pairing_events (VStr "d1") 0%nat eq_refl).
Defined.

Lemma token_is_read_from_the_first_truthy_place_witness :
  _extractToken sample_TypeError (connect_request "secret" "d1" "1")
  = Normal (VStr "secret") /\
  accepted sample_TypeError "secret" shadowed_token_request = false.
Proof.
  split.
  - exact (proj1 (token_is_read_from_the_first_truthy_place sample_TypeError
                    (connect_request "secret" "d1" "1") eq_refl) eq_refl).
  - apply (token_is_read_from_the_first_truthy_place sample_TypeError
             shadowed_token_request eq_refl); [reflexivity|discriminate].
Defined.

Lemma device_id_is_resolved_witness :
  resolve_device sample_TypeError (VObj literal [("method", VStr "connect")])
    "10.0.0.2:50001"
  = Normal (VStr "device-10.0.0.2:50001") /\
  resolve_device sample_TypeError (connect_request "secret" "d1" "1") "10.0.0.2:50001"
  = Normal (VStr "d1").
Proof.
  split.
  - apply (device_id_is_resolved sample_TypeError
             (VObj literal [("method", VStr "connect")])
             "10.0.0.2:50001" eq_refl); reflexivity.
  - exact (proj1 (device_id_is_resolved sample_TypeError
                    (connect_request "secret" "d1" "1") "10.0.0.2:50001" eq_refl)
             eq_refl).
Defined.

Lemma sendText_null_options_throws_witness :
  sample_sendText (VStr "d1") (VStr "hello") VNull sample_paired
  = (Throw (sample_TypeError VNull "runId"), sample_paired).
Proof.
  exact (sendText_null_options_throws sample_uuid sample_clock sample_stringify
           sample_TypeError sample_Number_toString sample_ToPrimitive
           (VStr "d1") (VStr "hello") 0 sample_paired eq_refl).
Defined.

Lemma close_of_unpaired_socket_witness :
  sample_on_close 0 sample_one = set_readyState 0 CLOSED sample_one.
Proof.
  exact (close_of_unpaired_socket sample_Number_toString sample_ToPrimitive 0
           sample_one eq_refl).
Defined.

Lemma sendText_after_close_witness :
  let opaque := VObj literal [("toString", VNum 1)] in
  let t := sample_dispatch 0 "10.0.0.2:50001" (opaque_id_request "secret" "6")
             sample_one in
  (exists s',
     sample_sendText (VStr "d1") (VStr "hello") VUndefined (sample_on_close 0 sample_paired)
     = (Normal false, s') /\
     frames (trace s') = frames (trace (sample_on_close 0 sample_paired))) /\
  sample_sendText opaque (VStr "hello") VUndefined (sample_on_close 0 t)
  = (Throw sample_ToPrimitive, sample_on_close 0 t).
Proof.
  split.
  - exact (proj1 (proj2 (sendText_after_close sample_uuid sample_clock sample_stringify
                           sample_TypeError sample_Number_toString sample_ToPrimitive
                           0 (mkWebSocket OPEN (VStr "d1") "10.0.0.2:50001")
                           (VStr "hello") VUndefined sample_paired eq_refl eq_refl))
             "d1" eq_refl).
  - exact (proj2 (proj2 (sendText_after_close sample_uuid sample_clock sample_stringify
                           sample_TypeError sample_Number_toString sample_ToPrimitive
                           0 (mkWebSocket OPEN (VObj literal [("toString", VNum 1)])
                                "10.0.0.2:50001")
                           (VStr "hello") VUndefined
                           (sample_dispatch 0 "10.0.0.2:50001"
                              (opaque_id_request "secret" "6") sample_one)
                           eq_refl eq_refl))
             sample_ToPrimitive eq_refl).
Defined.

Lemma retagged_socket_leaves_its_old_entry_witness :
  let s1 := sample_dispatch 0 "10.0.0.2:50001" (connect_request "secret" "d2" "2")
              sample_paired in
  let s2 := sample_on_close 0 s1 in
  Map.get (VStr "d1") (clients s2) = Some 0%nat /\
  Map.get (VStr "d2") (clients s2) = None /\
  readyState_of s2 0 = CLOSED /\
  wire (trace s2) = wire (trace s1) ++ [Emit (deviceDisconnected (VStr "d2"))] /\
  exists s3,
    sample_sendText (VStr "d1") (VStr "hello") VUndefined s2 = (Normal true, s3) /\
    trace s3 = trace s2.
Proof.
  destruct (retagged_socket_leaves_its_old_entry sample_uuid sample_clock
              sample_stringify sample_TypeError sample_Number_toString
              sample_ToPrimitive 0
              (mkWebSocket OPEN (VStr "d1") "10.0.0.2:50001")
              (connect_request "secret" "d2" "2") sample_paired
              (VStr "d1") (VStr "d2") eq_refl eq_refl eq_refl eq_refl eq_refl)
    as (_ & _ & Hold & Hnew & Hclosed & Hwire & Hsend).
  split; [exact Hold|]. split; [exact Hnew|]. split; [exact Hclosed|].
  split; [exact (Hwire "d2" eq_refl)|]. apply Hsend.
Defined.

Lemma frame_that_is_no_object_is_ignored_witness :
  let s := sample_one in
  silently_ignored s (sample_dispatch 0 "10.0.0.2:50001" (VArr literal [VNum 1]) s) /\
  same_gateway s (sample_dispatch 0 "10.0.0.2:50001" (VArr literal [VNum 1]) s).
Proof.
  apply (frame_that_is_no_object_is_ignored sample_uuid sample_clock sample_stringify
           sample_TypeError sample_Number_toString sample_ToPrimitive
           0 "10.0.0.2:50001" (VArr literal [VNum 1])).
  discriminate.
Defined.

Lemma connect_with_unprintable_device_id_witness :
  let s := sample_one in
  let msg := opaque_id_request "secret" "6" in
  let opaque := VObj literal [("toString", VNum 1)] in
  let s' := sample_dispatch 0 "10.0.0.2:50001" msg s in
  fst (sample_handleMessage 0 msg "10.0.0.2:50001" s) = Throw sample_ToPrimitive /\
  trace s' =
    trace s
    ++ [Console ("[RabbitGateway] Error parsing message from 10.0.0.2:50001: "
                 +:+ sample_ToPrimitive)] /\
  silently_ignored s s' /\
  Map.get opaque (clients s') = Some 0%nat /\
  deviceId_of s' 0 = opaque /\
  exists s'' frame,
    sample_sendText opaque (VStr "hello") VUndefined s' = (Normal true, s'') /\
    frames (trace s'') = frames (trace s') ++ [(0%nat, frame)].
Proof.
  destruct (connect_with_unprintable_device_id sample_uuid sample_clock
              sample_stringify sample_TypeError sample_Number_toString
              sample_ToPrimitive 0
              (mkWebSocket OPEN VUndefined "10.0.0.2:50001")
              (opaque_id_request "secret" "6") sample_one
              (VObj literal [("toString", VNum 1)]) sample_ToPrimitive
              eq_refl eq_refl eq_refl eq_refl eq_refl)
    as (Hthrows & Htrace & Hignored & Hreg & Htag & Hsend).
  split; [exact Hthrows|]. split; [exact Htrace|]. split; [exact Hignored|].
  split; [exact Hreg|]. split; [exact Htag|].
  exact (Hsend eq_refl (VStr "hello")).
Defined.

Lemma lan_ips_are_the_private_ipv4_addresses_witness :
  In "192.168.1.20" (_getLanIps sample_interfaces) /\
  In "172.17.0.1" (_getLanIps sample_interfaces) /\
  _getLanIps sample_interfaces = ["192.168.1.20"; "172.17.0.1"].
Proof.
  split; [|split; [|reflexivity]].
  - apply (lan_ips_are_the_private_ipv4_addresses sample_interfaces "192.168.1.20").
    exists "eth0", [mkNet "192.168.1.20" (VStr "IPv4") false;
                    mkNet "fe80::1" (VStr "IPv6") false;
                    mkNet "8.8.4.4" (VStr "IPv4") false],
           (mkNet "192.168.1.20" (VStr "IPv4") false).
    split; [right; left; reflexivity|]. split; [left; reflexivity|]. now repeat split.
  - apply (lan_ips_are_the_private_ipv4_addresses sample_interfaces "172.17.0.1").
    exists "docker0", [mkNet "172.17.0.1" (VStr "IPv4") false],
           (mkNet "172.17.0.1" (VStr "IPv4") false).
    split; [right; right; left; reflexivity|]. split; [left; reflexivity|].
    now repeat split.
Defined.

Lemma tailscale_ip_is_the_first_usable_output_witness :
  _getTailscaleIp sample_exec sample_trim = Some "100.64.0.7" /\
  exists before cmd after stdout,
    tailscale_commands = before ++ cmd :: after /\
    sample_exec cmd = Normal stdout /\ stdout <> "" /\
    "100.64.0.7" = sample_trim stdout /\
    forall c, In c before -> first_tailscale_ip sample_exec sample_trim [c] = None.
Proof.
  split; [reflexivity|].
  exact (proj2 (proj1 (tailscale_ip_is_the_first_usable_output sample_exec sample_trim)
                  "100.64.0.7" eq_refl)).
Defined.

Lemma pairing_addresses_witness :
  qr_ips sample_interfaces sample_exec sample_trim true
  = ["100.64.0.7"; "192.168.1.20"; "172.17.0.1"].
Proof.
  apply (proj2 (proj2 (proj2
           (pairing_addresses sample_interfaces sample_exec sample_trim)))
           "100.64.0.7"); [reflexivity|].
  intros [H|[H|[]]]; discriminate H.
Defined.

Lemma pairing_code_token_is_accepted_witness :
  let s := fresh_gateway sample_uuid in
  let payload := qr_payload (qr_ips sample_interfaces sample_exec sample_trim true) s in
  getQrCode sample_stringify sample_interfaces sample_exec sample_trim
    sample_toDataURL true s
  = sample_toDataURL (sample_stringify payload) /\
  opt_member payload "port" = VNum (Z.of_N (port s)) /\
  exists tok,
    opt_member payload "token" = VStr tok /\
    accepted sample_TypeError (token (sample_run pairing_events s))
      (connect_request tok "d1" "1") = true.
Proof.
  apply (pairing_code_token_is_accepted sample_uuid sample_clock sample_parse
           sample_stringify sample_TypeError sample_Number_toString
           sample_ToPrimitive sample_Server sample_interfaces sample_exec sample_trim
           sample_toDataURL true pairing_events "d1" "1" (fresh_gateway sample_uuid)).
  discriminate.
Defined.

(** Device ids that are arrays are registered by identity: two peers that
    pair with the same text [[1]] as their device id get an entry each,
    because each [JSON.parse] makes the array anew; [sendText] with the
    array of the second peer writes on the second connection, and
    [sendText] with another array [[1]] finds no entry and returns
    false. *)
Theorem array_ids_are_told_apart :
  let s := sample_run array_pairing_events (fresh_gateway sample_uuid) in
  let first := VArr (parsed 0 [0; 1; 1]%nat) [VNum 1] in
  let second := VArr (parsed 1 [0; 1; 1]%nat) [VNum 1] in
  clients s = [(first, 0%nat); (second, 1%nat)] /\
  deviceId_of s 0 = first /\
  deviceId_of s 1 = second /\
  (exists s' frame,
     sample_sendText second (VStr "hello") VUndefined s = (Normal true, s') /\
     frames (trace s') = frames (trace s) ++ [(1%nat, frame)]) /\
  fst (sample_sendText (VArr literal [VNum 1]) (VStr "hello") VUndefined s)
  = Normal false.
Proof.
  vm_compute. do 3 (split; [reflexivity|]). split; [|reflexivity].
  eexists. eexists. split; reflexivity.
Qed.

Lemma frame_in_a_turn_of_its_own_witness :
  let data := sample_stringify (opaque_id_request "secret" "6") in
  sample_run [receives 0 data; microtasks] sample_one
  = sample_dispatch 0 "10.0.0.2:50001"
      (allocate 0 [] (opaque_id_request "secret" "6"))
      (with_parse_calls 1 sample_one).
Proof.
  exact (frame_in_a_turn_of_its_own sample_uuid sample_clock sample_parse
           sample_stringify sample_TypeError sample_Number_toString
           sample_ToPrimitive sample_Server 0
           (mkWebSocket OPEN VUndefined "10.0.0.2:50001")
           (sample_stringify (opaque_id_request "secret" "6"))
           (allocate 0 [] (opaque_id_request "secret" "6"))
           sample_one eq_refl eq_refl eq_refl).
Defined.
